(** * Verification model of instant-meshes-mcp (server.py)

    A shallow embedding of the parts of [server.py] that decide the
    mesh-processing pipeline: the Blender wait loops, the progressive and
    UV-preserving decimation, the operation selection of [process_model],
    its cleanup on failure, the Instant Meshes command line and the
    material relinking of [restore_obj_material].  External libraries
    (pymeshlab, trimesh, the file system, the clock) are parameters. *)

From Stdlib Require Import ZArith List String Ascii Bool Lia.
From Stdlib Require Import Floats.SpecFloat.
From stdpp Require Import base gmap sets strings.

Import ListNotations.
Open Scope Z_scope.

(** ** Python floats (IEEE binary64) *)
Module PyFloat.

Definition prec : Z := 53.
Definition emax : Z := 1024.

Definition t := spec_float.

(** [float(n)] for a Python int: round to nearest, ties to even. *)
Definition of_Z (n : Z) : t := binary_normalize prec emax n 0 false.

(** A decimal literal [p/q] is the correctly rounded quotient. *)
Definition lit (p q : Z) : t := SFdiv prec emax (of_Z p) (of_Z q).

Definition mul (x y : t) : t := SFmul prec emax x y.
Definition div (x y : t) : t := SFdiv prec emax x y.

(** [int * float] in Python: the int is converted, then multiplied. *)
Definition mul_int (n : Z) (x : t) : t := mul (of_Z n) x.

(** [int / int] (true division); exact operands below 2^53. *)
Definition truediv (a b : Z) : option t :=
  if Z.eqb b 0 then None else Some (div (of_Z a) (of_Z b)).

(** [int(x)]: truncation toward zero; infinities and NaN raise. *)
Definition to_int (x : t) : option Z :=
  match x with
  | S754_zero _ => Some 0
  | S754_finite s m e =>
      let a := if Z.leb 0 e then Z.shiftl (Zpos m) e
               else Z.shiftr (Zpos m) (- e) in
      Some (if s then - a else a)
  | _ => None
  end.

(** Exact comparison of a Python int with a float, as Python does it.
    [None] stands for NaN (every comparison is then false). *)
Definition cmp_int (n : Z) (x : t) : option comparison :=
  match x with
  | S754_zero _ => Some (Z.compare n 0)
  | S754_infinity s => Some (if s then Gt else Lt)
  | S754_nan => None
  | S754_finite s m e =>
      let v := if s then Z.neg m else Zpos m in
      if Z.leb 0 e then Some (Z.compare n (Z.shiftl v e))
      else Some (Z.compare (Z.shiftl n (- e)) v)
  end.

Definition int_lt (n : Z) (x : t) : bool :=
  match cmp_int n x with Some Lt => true | _ => false end.
Definition int_le (n : Z) (x : t) : bool :=
  match cmp_int n x with Some Lt | Some Eq => true | _ => false end.
Definition int_gt (n : Z) (x : t) : bool :=
  match cmp_int n x with Some Gt => true | _ => false end.
Definition int_ge (n : Z) (x : t) : bool :=
  match cmp_int n x with Some Gt | Some Eq => true | _ => false end.

(** [x < y] on two floats. *)
Definition ltb (x y : t) : bool := SFltb x y.

End PyFloat.

(** ** Waiting for a detached Blender process

    The loop of [glb_to_obj_with_textures] (OBJ output) and the identical
    loop of [obj_to_glb] (GLB output).  [probe w] is what the file system
    shows at the top of iteration [w] ([waited_time = w]); [reprobe w] is
    the output size read again after the extra [time.sleep(2)]. *)
Module Wait.

Record probe_result := {
  done_flag_exists : bool;
  out_exists : bool;
  out_size : Z   (** [os.path.getsize], meaningful when [out_exists] *)
}.

Definition max_wait_time : nat := 180.

Section Loop.
Variable probe : nat -> probe_result.
Variable reprobe : nat -> Z.  (** size after the 2s re-check, 0 if gone *)

Definition size_at (w : nat) : Z :=
  if out_exists (probe w) then out_size (probe w) else 0.

(** The first branch: flag present and output non-empty. *)
Definition flag_ok (w : nat) : bool :=
  done_flag_exists (probe w) && out_exists (probe w) && (0 <? size_at w).

(** The [elif] branch, reached only when [flag_ok w] is false. *)
Definition stable_ok (w : nat) : bool :=
  out_exists (probe w) && (0 <? size_at w) && Nat.ltb 30 w
  && (reprobe w =? size_at w) && (0 <? size_at w).

Fixpoint wait_loop (fuel : nat) (w : nat) : bool :=
  match fuel with
  | O => false
  | S f =>
      if flag_ok w then true
      else if out_exists (probe w) && (0 <? size_at w) && Nat.ltb 30 w then
        if (reprobe w =? size_at w) && (0 <? size_at w) then true
        else wait_loop f (S w)
      else wait_loop f (S w)
  end.

(** The poll at iteration [w] ends the loop with success. *)
Definition poll_succeeds (w : nat) : bool :=
  flag_ok w || stable_ok w.

(** [blender_completed] after [while waited_time < max_wait_time]. *)
Definition blender_completed : bool := wait_loop max_wait_time 0.

End Loop.

End Wait.

(** ** Python string helpers *)
Module PyStr.

Local Open Scope string_scope.

(** [s.startswith(p)] *)
Definition startswith (s p : string) : bool := String.prefix p s.

(** [s.replace(old, new)]: every non-overlapping occurrence, left to
    right ([old] is never empty in this program). *)
Fixpoint replace_aux (fuel : nat) (old new s : string) : string :=
  match fuel with
  | O => s
  | S f =>
      match s with
      | EmptyString => EmptyString
      | String c rest =>
          if String.prefix old s then
            new ++ replace_aux f old new (substring (String.length old)
                                               (String.length s) s)
          else String c (replace_aux f old new rest)
      end
  end.

Definition replace (s old new : string) : string :=
  replace_aux (String.length s) old new s.

End PyStr.

(** ** pymeshlab: the operations the decimation code calls *)
Module Decim.

(** Arguments of [meshing_decimation_quadric_edge_collapse]; the
    [boundaryweight] literals 1.0, 2.0 and 3.0 are kept as integers. *)
Record collapse_params := {
  targetfacenum : Z;
  preserveboundary : bool;
  preservenormal : bool;
  preservetopology : bool;
  optimalplacement : bool;
  planarquadric : bool;
  qualityweight : bool;
  autoclean : bool;
  boundaryweight : Z
}.

(** The pymeshlab [MeshSet] operations.  [None] means the call raised;
    a failed filter leaves the mesh as it was. *)
Class MeshLib (M : Type) := {
  load_new_mesh : string -> option M;
  face_number : M -> Z;
  quadric_collapse : collapse_params -> M -> option M;
  remove_duplicate_vertices : M -> option M;
  remove_duplicate_faces : M -> option M;
  remove_null_faces : M -> option M;
  (** [has_face_tex_coord() or has_vert_tex_coord()] *)
  has_tex_coord : M -> option bool;
  (** whether [save_current_mesh] to this path succeeds *)
  save_ok : M -> string -> bool
}.

(** Result of a Python function: it raised, or it returned a value. *)
Inductive outcome (A : Type) := Raised | Returned (a : A).
Arguments Raised {A}.
Arguments Returned {A} a.

Section WithMesh.
Context {M : Type} `{MeshLib M}.

(** A [MeshSet]: its current mesh and the log of every collapse
    call made on it, whether or not the call raised. *)
Record meshset := { ms_mesh : M; ms_calls : list collapse_params }.

Definition collapse (p : collapse_params) (ms : meshset) : meshset * bool :=
  let calls := ms_calls ms ++ [p] in
  match quadric_collapse p (ms_mesh ms) with
  | Some m' => ({| ms_mesh := m'; ms_calls := calls |}, true)
  | None => ({| ms_mesh := ms_mesh ms; ms_calls := calls |}, false)
  end.

Definition cur_faces (ms : meshset) : Z := face_number (ms_mesh ms).

(** The three clean-up filters in one [try]: stops at the first that
    raises, keeping what the earlier ones did. *)
Definition preclean (ms : meshset) : meshset :=
  let upd m := {| ms_mesh := m; ms_calls := ms_calls ms |} in
  match remove_duplicate_vertices (ms_mesh ms) with
  | None => ms
  | Some m1 =>
      match remove_duplicate_faces m1 with
      | None => upd m1
      | Some m2 =>
          match remove_null_faces m2 with
          | None => upd m2
          | Some m3 => upd m3
          end
      end
  end.

Definition bw (preserve_boundaries : bool) : Z :=
  if preserve_boundaries then 2 else 1.

Definition step_params (next_target : Z) (pb : bool) : collapse_params :=
  {| targetfacenum := next_target; preserveboundary := pb;
     preservenormal := true; preservetopology := true;
     optimalplacement := true; planarquadric := false;
     qualityweight := false; autoclean := false;
     boundaryweight := bw pb |}.

Definition final_params (target : Z) (pb : bool) : collapse_params :=
  {| targetfacenum := target; preserveboundary := pb;
     preservenormal := true; preservetopology := true;
     optimalplacement := true; planarquadric := false;
     qualityweight := false; autoclean := true;
     boundaryweight := bw pb |}.

(** Which statement left the [while] loop (each [break] writes its own
    log line; the loop condition has two conjuncts). *)
Inductive exit_reason :=
| ExitFacesNearTarget   (** [current_faces > target_faces * 1.1] false *)
| ExitStepCap           (** [step <= max_steps] false *)
| ExitTimeout           (** elapsed time above 300 s *)
| ExitStepFailed        (** the collapse raised *)
| ExitInsufficient      (** [current_faces >= prev_faces * 0.95] *)
| ExitAbnormal          (** [current_faces <= 0] *)
| ExitCloseToTarget.    (** [current_faces <= target_faces * 1.05] *)

Definition max_steps : Z := 10.

Record loop_state := {
  ls_ms : meshset;
  ls_current : Z;
  ls_step : Z
}.

Section Loop.
Variable target_faces : Z.
Variable preserve_boundaries : bool.
(** [time.time() - start_time > timeout_seconds] at the top of the
    iteration numbered [step]. *)
Variable timed_out : Z -> bool.

Fixpoint ps_loop (fuel : nat) (s : loop_state)
  : outcome (loop_state * exit_reason) :=
  match fuel with
  | O => Returned (s, ExitStepCap)
  | S f =>
      let current := ls_current s in
      let step := ls_step s in
      if negb (PyFloat.int_gt current
                 (PyFloat.mul_int target_faces (PyFloat.lit 11 10)))
      then Returned (s, ExitFacesNearTarget)
      else if negb (step <=? max_steps) then Returned (s, ExitStepCap)
      else if timed_out step then Returned (s, ExitTimeout)
      else
        let prev_faces := current in
        match PyFloat.to_int
                (PyFloat.mul_int current (PyFloat.lit 6 10)) with
        | None => Raised
        | Some sixty =>
            let next_target := Z.max target_faces sixty in
            let ms0 := if step =? 1 then preclean (ls_ms s) else ls_ms s in
            let '(ms1, ok) :=
              collapse (step_params next_target preserve_boundaries) ms0 in
            if negb ok then
              Returned ({| ls_ms := ms1; ls_current := current;
                           ls_step := step |}, ExitStepFailed)
            else
              let current' := cur_faces ms1 in
              let s' := {| ls_ms := ms1; ls_current := current';
                           ls_step := step + 1 |} in
              if PyFloat.int_ge current'
                   (PyFloat.mul_int prev_faces (PyFloat.lit 95 100))
              then Returned (s', ExitInsufficient)
              else if current' <=? 0 then Returned (s', ExitAbnormal)
              else if PyFloat.int_le current'
                        (PyFloat.mul_int target_faces (PyFloat.lit 105 100))
              then Returned (s', ExitCloseToTarget)
              else ps_loop f s'
        end
  end.

(** The final precise collapse after the loop; a failure is ignored. *)
Definition ps_final (s : loop_state) : meshset :=
  if ls_current s >? target_faces then
    fst (collapse (final_params target_faces preserve_boundaries) (ls_ms s))
  else ls_ms s.

(** The aggressive branch ([reduction_ratio < 0.5]) on a loaded mesh. *)
Definition ps_aggressive (ms : meshset)
  : outcome (meshset * loop_state * exit_reason) :=
  match ps_loop 11 {| ls_ms := ms; ls_current := cur_faces ms;
                      ls_step := 1 |} with
  | Raised => Raised
  | Returned (s, r) => Returned (ps_final s, s, r)
  end.

End Loop.

(** [progressive_simplify(input_path, target_faces, preserve_boundaries)]:
    the returned path and the [MeshSet] it worked on.  [load_new_mesh]
    and [save_current_mesh] are not guarded: their errors propagate. *)
Definition progressive_simplify (input_path : string) (target_faces : Z)
    (preserve_boundaries : bool) (timed_out : Z -> bool)
  : outcome (string * meshset) :=
  match load_new_mesh input_path with
  | None => Raised
  | Some m =>
      let ms := {| ms_mesh := m; ms_calls := [] |} in
      let original_faces := cur_faces ms in
      if original_faces <=? target_faces then Returned (input_path, ms)
      else
        match PyFloat.truediv target_faces original_faces with
        | None => Raised
        | Some reduction_ratio =>
            (* the [MeshSet] after the branch, and [false] when the
               one-shot collapse raised ([return input_path]) *)
            let result :=
              if PyFloat.ltb reduction_ratio (PyFloat.lit 5 10) then
                match ps_aggressive target_faces preserve_boundaries
                        timed_out ms with
                | Raised => Raised
                | Returned (ms', _, _) => Returned (ms', true)
                end
              else
                Returned (collapse (final_params target_faces preserve_boundaries) ms)
            in
            match result with
            | Raised => Raised
            | Returned (ms', false) => Returned (input_path, ms')
            | Returned (ms', true) =>
                let simplified_path :=
                  PyStr.replace input_path ".obj" "_simplified.obj" in
                if save_ok (ms_mesh ms') simplified_path
                then Returned (simplified_path, ms')
                else Raised
            end
        end
  end.

(** The collapse calls of [simplify_with_uv_preservation]. *)
Definition uv_phase1_params (intermediate : Z) : collapse_params :=
  {| targetfacenum := intermediate; preserveboundary := true;
     preservenormal := true; preservetopology := true;
     optimalplacement := true; planarquadric := false;
     qualityweight := false; autoclean := false; boundaryweight := 3 |}.

Definition uv_fallback_params (target : Z) : collapse_params :=
  {| targetfacenum := target; preserveboundary := true;
     preservenormal := true; preservetopology := false;
     optimalplacement := true; planarquadric := false;
     qualityweight := false; autoclean := true; boundaryweight := 2 |}.

Definition uv_phase2_params (target : Z) : collapse_params :=
  {| targetfacenum := target; preserveboundary := true;
     preservenormal := true; preservetopology := true;
     optimalplacement := true; planarquadric := false;
     qualityweight := false; autoclean := true; boundaryweight := 3 |}.

Definition uv_moderate_params (target : Z) (pb : bool) : collapse_params :=
  {| targetfacenum := target; preserveboundary := pb;
     preservenormal := true; preservetopology := true;
     optimalplacement := true; planarquadric := false;
     qualityweight := false; autoclean := true; boundaryweight := 2 |}.

(** The textured branch on a loaded mesh with more faces than the target:
    the [MeshSet] afterwards, and whether the function goes on to save
    it ([false]: [return input_path]). *)
Definition uv_textured (target_faces : Z) (preserve_boundaries : bool)
    (ms : meshset) : outcome (meshset * bool) :=
  let original_faces := cur_faces ms in
  match PyFloat.truediv target_faces original_faces with
  | None => Raised
  | Some reduction_ratio =>
      if PyFloat.ltb reduction_ratio (PyFloat.lit 3 10) then
        match PyFloat.to_int
                (PyFloat.mul_int original_faces (PyFloat.lit 5 10)) with
        | None => Raised
        | Some intermediate_target =>
            let '(ms1, ok1) := collapse (uv_phase1_params intermediate_target) ms in
            if ok1 then
              Returned (fst (collapse (uv_phase2_params target_faces) ms1), true)
            else Returned (collapse (uv_fallback_params target_faces) ms1)
        end
      else
        Returned (collapse (uv_moderate_params target_faces preserve_boundaries) ms)
  end.

(** [simplify_with_uv_preservation(input_path, target_faces,
    preserve_boundaries)]: the returned path and the [MeshSet] that
    produced it ([None] when the load failed and nothing was loaded).
    Meshes without texture coordinates go to [progressive_simplify]. *)
Definition simplify_with_uv_preservation (input_path : string)
    (target_faces : Z) (preserve_boundaries : bool)
    (timed_out : Z -> bool) : outcome (string * option meshset) :=
  match load_new_mesh input_path with
  | None => Returned (input_path, None)
  | Some m =>
      let ms := {| ms_mesh := m; ms_calls := [] |} in
      if cur_faces ms <=? target_faces then Returned (input_path, Some ms)
      else
        let has_texcoords :=
          match has_tex_coord m with Some b => b | None => false end in
        if has_texcoords then
          match uv_textured target_faces preserve_boundaries ms with
          | Raised => Raised
          | Returned (ms', false) => Returned (input_path, Some ms')
          | Returned (ms', true) =>
              let simplified_path :=
                PyStr.replace input_path ".obj" "_uv_simplified.obj" in
              if save_ok (ms_mesh ms') simplified_path
              then Returned (simplified_path, Some ms')
              else Returned (input_path, Some ms')
          end
        else
          match progressive_simplify input_path target_faces
                  preserve_boundaries timed_out with
          | Raised => Raised
          | Returned (p, ms') => Returned (p, Some ms')
          end
  end.

End WithMesh.

End Decim.

(** ** [check_mesh_quality] and the decisions of [process_model] *)
Module Pipeline.

Import Decim.
Local Open Scope string_scope.

(** What trimesh provides to [check_mesh_quality]. *)
Class TriMesh (T : Type) := {
  (** [trimesh.load(obj_path, force='mesh')]: the mesh or [str(e)] *)
  tm_load : string -> T + string;
  (** building [quality_info] (counts, volume, area, bounds, bbox
      diagonal): [None] when one of these expressions raised *)
  tm_counts : T -> option (Z * Z * Z);   (** vertices, faces, edges *)
  tm_is_watertight : T -> bool;
  (** [len(mesh.split(only_watertight=False))]; [None]: it raised *)
  tm_components : T -> option Z;
  tm_area_below_0_001 : T -> bool;
  (** [max_edge > 0 and min_edge / max_edge < 0.001]; [None]: it raised *)
  tm_extreme_edges : T -> option bool
}.

Inductive warning :=
| WComponents (n : Z)
| WSmallArea
| WExtremeEdges.

(** The dictionary returned by [check_mesh_quality]. *)
Record quality := {
  q_vertices : Z;
  q_faces : Z;
  q_edges : Z;
  q_watertight : bool;
  q_components : option Z;
  q_issues : list string;
  q_warnings : list warning
}.

Inductive report :=
| Report (q : quality)
| ReportError (msg : string).   (** [{"error": str(e)}] *)

(** [quality.get("faces", 0)], [.get("watertight", False)],
    [.get("issues", [])]. *)
Definition get_faces (r : report) : Z :=
  match r with Report q => q_faces q | ReportError _ => 0 end.
Definition get_watertight (r : report) : bool :=
  match r with Report q => q_watertight q | ReportError _ => false end.
Definition get_issues (r : report) : list string :=
  match r with Report q => q_issues q | ReportError _ => [] end.

Section Quality.
Context {T : Type} `{TriMesh T}.

Definition quality_issues (wt : bool) (nv nf : Z) : list string :=
  (if wt then [] else ["Not watertight (has holes)"])
  ++ (if Z.eqb nf 0 then ["No faces"] else [])
  ++ (if Z.eqb nv 0 then ["No vertices"] else []).

Definition quality_warnings (mesh : T) : list warning :=
  (match tm_components mesh with
   | Some n => if Z.ltb 1 n then [WComponents n] else []
   | None => []
   end)
  ++ (if tm_area_below_0_001 mesh then [WSmallArea] else [])
  ++ (match tm_extreme_edges mesh with
      | Some true => [WExtremeEdges]
      | _ => []
      end).

(** [check_mesh_quality(obj_path)]: every exception of the body is
    caught by [except Exception as e: return {"error": str(e)}]. *)
Definition check_mesh_quality (obj_path : string) : report :=
  match tm_load obj_path with
  | inr msg => ReportError msg
  | inl mesh =>
      match tm_counts mesh with
      | None => ReportError "quality_info"
      | Some (nv, nf, ne) =>
          let comps :=
            match tm_components mesh with
            | Some n => if Z.ltb 1 n then Some n else None
            | None => None
            end in
          Report {| q_vertices := nv; q_faces := nf; q_edges := ne;
                    q_watertight := tm_is_watertight mesh;
                    q_components := comps;
                    q_issues := quality_issues (tm_is_watertight mesh) nv nf;
                    q_warnings := quality_warnings mesh |}
      end
  end.
End Quality.

(** Step 3 of [process_model]: [actual_operation]. *)
Definition select_operation (operation : string) (r : report) : string :=
  if String.eqb operation "auto" then
    let is_watertight := get_watertight r in
    let has_issues := Z.ltb 0 (Z.of_nat (length (get_issues r))) in
    if is_watertight && negb has_issues then "simplify" else "remesh"
  else operation.

(** The branch taken at step 4/5. *)
Inductive branch := NoProcessing | SimplifyBranch | RemeshBranch.

Definition process_branch (operation : string) (target_faces : Z)
    (r : report) : branch :=
  let actual_operation := select_operation operation r in
  if Z.leb (get_faces r) target_faces then NoProcessing
  else if String.eqb actual_operation "simplify" then SimplifyBranch
  else RemeshBranch.

(** The collaborators called at step 5, in call order. *)
Inductive call :=
| CallSimplifyUV (obj_in : string)
| CallRestore (obj obj_ref : string)
| CallRepair (obj_in : string)
| CallInstantMeshes (obj_in obj_out : string).

Section Core.
Variable simplify_uv : string -> Z -> bool -> outcome string.
Variable restore : string -> string -> outcome unit.
Variable repair : string -> outcome string.
Variable instant_meshes : string -> string -> Z -> outcome unit.
(** the path [get_temp_file(".obj")] returns at step 5 *)
Variable temp_output : string.

(** Steps 2 to 5 of [process_model]: [final_obj] and the calls made. *)
Definition process_core (obj_in : string) (target_faces : Z)
    (operation : string) (preserve_boundaries : bool) (r : report)
  : outcome (string * list call) :=
  match process_branch operation target_faces r with
  | NoProcessing => Returned (obj_in, [])
  | SimplifyBranch =>
      match simplify_uv obj_in target_faces preserve_boundaries with
      | Raised => Raised
      | Returned simplified_obj =>
          match restore simplified_obj obj_in with
          | Raised => Raised
          | Returned _ =>
              Returned (simplified_obj,
                        [CallSimplifyUV obj_in; CallRestore simplified_obj obj_in])
          end
      end
  | RemeshBranch =>
      let obj_in' :=
        match repair obj_in with Returned p => p | Raised => obj_in end in
      match instant_meshes obj_in' temp_output target_faces with
      | Raised => Raised
      | Returned _ =>
          match restore temp_output obj_in' with
          | Raised => Raised
          | Returned _ =>
              Returned (temp_output,
                        [CallRepair obj_in; CallInstantMeshes obj_in' temp_output;
                         CallRestore temp_output obj_in'])
          end
      end
  end.
End Core.

(** *** The [try]/[except] around the body of [process_model] *)

(** The file system as the set of existing file paths (a directory is
    the common prefix of the files under it), and the [temp_files] list
    the body has recorded so far. *)
Record pstate := {
  temp_files : list string;
  files : gset string
}.

Inductive body_outcome :=
| BodyReturned (s : pstate)
| BodyRaised (s : pstate).   (** state when the exception left the body *)

Section Cleanup.
Variable TEMP_DIR : string.
(** [log_file], in [LOG_DIR] *)
Variable log_file : string.
(** whether the handler's [open(log_file, "a")] and writes succeed *)
Variable log_ok : bool.
(** whether [os.remove(p)] (or [os.unlink(p)]) succeeds on the existing
    file [p] *)
Variable remove_ok : string -> bool.
(** whether [os.listdir(TEMP_DIR)] succeeds *)
Variable listdir_ok : bool.

Definition in_temp_dir (p : string) : bool :=
  String.prefix (TEMP_DIR ++ "/") p.

(** [p] lies in the directory [d]. *)
Definition under (d p : string) : bool := String.prefix (d ++ "/") p.

(** The name up to the first ["/"]. *)
Fixpoint first_component (s : string) : string :=
  match s with
  | EmptyString => EmptyString
  | String c r => if Ascii.eqb c "/"%char then EmptyString else String c (first_component r)
  end.

Fixpoint str_drop (n : nat) (s : string) : string :=
  match n, s with
  | O, _ => s
  | S _, EmptyString => EmptyString
  | S n', String _ r => str_drop n' r
  end.

(** [os.path.join(TEMP_DIR, filename)] for the entry of [TEMP_DIR] that
    holds the path [p]. *)
Definition entry_of (p : string) : string :=
  TEMP_DIR ++ "/" ++ first_component (str_drop (String.length (TEMP_DIR ++ "/")) p).

(** [os.listdir(TEMP_DIR)], each name joined to [TEMP_DIR] (the order is
    the file system's; here the order of [elements]). *)
Definition temp_entries (fs : gset string) : list string :=
  remove_dups (map entry_of (List.filter in_temp_dir (elements fs))).

(** [if os.path.exists(f): try: os.remove(f) except Exception: pass] *)
Definition remove_file (fs : gset string) (f : string) : gset string :=
  if decide (f ∈ fs) then (if remove_ok f then fs ∖ {[ f ]} else fs) else fs.

(** [for f in temp_files: ...] *)
Definition remove_temp_files (tf : list string) (fs : gset string) : gset string :=
  fold_left remove_file tf fs.

(** [shutil.rmtree(d)]: removes the files under [d] one after the other
    and raises at the first one it cannot remove. *)
Fixpoint rmtree_loop (l : list string) (fs : gset string) : gset string :=
  match l with
  | [] => fs
  | f :: rest => if remove_ok f then rmtree_loop rest (fs ∖ {[ f ]}) else fs
  end.
Definition rmtree (d : string) (fs : gset string) : gset string :=
  rmtree_loop (List.filter (under d) (elements fs)) fs.

(** The body of the loop of [clean_temp_directory]: [os.unlink] a file,
    [shutil.rmtree] a directory; a failure is skipped ([continue]). *)
Definition clean_entry (fs : gset string) (file_path : string) : gset string :=
  if decide (file_path ∈ fs) then remove_file fs file_path
  else if existsb (under file_path) (elements fs) then rmtree file_path fs
  else fs.

(** [clean_temp_directory()]; when [os.listdir] raises, nothing is
    removed ([except Exception: pass]). *)
Definition clean_temp_directory (fs : gset string) : gset string :=
  if listdir_ok then fold_left clean_entry (temp_entries fs) fs else fs.

(** The [except] block: the two log lines, the temp files, the temp
    directory.  When the log write raises, that exception leaves the
    handler at once. *)
Definition emergency_cleanup (s : pstate) : pstate :=
  if log_ok then
    {| temp_files := temp_files s;
       files := clean_temp_directory
                  (remove_temp_files (temp_files s) (files s ∪ {[ log_file ]})) |}
  else s.

(** [try: <body> except Exception: <cleanup>; raise] *)
Definition process_model_guarded (body : pstate -> body_outcome)
    (s : pstate) : body_outcome :=
  match body s with
  | BodyReturned s' => BodyReturned s'
  | BodyRaised s' => BodyRaised (emergency_cleanup s')
  end.
End Cleanup.

End Pipeline.

(** ** The Instant Meshes command line of [run_instant_meshes] *)
Module Remesh.

Import Decim.
Local Open Scope string_scope.

(** An element of [cmd]; [AInt n] is [str(n)]. *)
Inductive arg := AStr (s : string) | AInt (n : Z).

(** A value of [extra_options]: a [bool], or anything else as [str(v)]. *)
Inductive optval := OBool (b : bool) | OOther (s : string).

Definition extra_args (extra_options : list (string * optval)) : list arg :=
  flat_map (fun kv =>
    match kv with
    | (k, OBool true) => [AStr k]
    | (_, OBool false) => []
    | (k, OOther v) => [AStr k; AStr v]
    end) extra_options.

Definition build_cmd (INSTANT_MESHES_PATH obj_in obj_out : string)
    (target_faces : Z) (extra_options : list (string * optval))
    (mode : string) : outcome (list arg) :=
  let base :=
    if String.eqb mode "fine" then
      Returned [AStr INSTANT_MESHES_PATH; AStr "-i"; AStr obj_in;
                AStr "-o"; AStr obj_out; AStr "--faces"; AInt target_faces;
                AStr "-d"; AStr "-b"; AStr "-c"]
    else if String.eqb mode "coarse" then
      match PyFloat.to_int (PyFloat.mul_int target_faces (PyFloat.lit 8 10)) with
      | None => Raised
      | Some target_faces' =>
          Returned [AStr INSTANT_MESHES_PATH; AStr "-i"; AStr obj_in;
                    AStr "-o"; AStr obj_out; AStr "--faces"; AInt target_faces';
                    AStr "-d"]
      end
    else if String.eqb mode "fix_holes" then
      Returned [AStr INSTANT_MESHES_PATH; AStr "-i"; AStr obj_in;
                AStr "-o"; AStr obj_out; AStr "--faces"; AInt target_faces;
                AStr "-d"; AStr "-b"; AStr "-s"; AStr "2"]
    else
      Returned [AStr INSTANT_MESHES_PATH; AStr "-i"; AStr obj_in;
                AStr "-o"; AStr obj_out; AStr "--faces"; AInt target_faces;
                AStr "-d"; AStr "-b"]
  in
  match base with
  | Raised => Raised
  | Returned cmd => Returned (app cmd (extra_args extra_options))
  end.

End Remesh.

(** ** [restore_obj_material]: re-attaching the material library *)
Module Relink.

Import Decim.
Local Open Scope string_scope.

Definition nl : string := String (ascii_of_nat 10) EmptyString.

(** [str.lower()] on the ASCII letters.  For the prefix test against
    ["mtllib"] this agrees with Python's Unicode [lower()]: no other
    character lowers to one of these letters alone. *)
Definition lower_ascii (c : ascii) : ascii :=
  let n := nat_of_ascii c in
  if (65 <=? n)%nat && (n <=? 90)%nat then ascii_of_nat (n + 32) else c.

Fixpoint lower (s : string) : string :=
  match s with
  | EmptyString => EmptyString
  | String c r => String (lower_ascii c) (lower r)
  end.

(** Python's whitespace for [str.split()] and [str.strip()]
    ([str.isspace]) among the code points below 256: 9 to 13, 28 to 32,
    133 ([\x85]) and 160 ([\xa0]). *)
Definition is_space (c : ascii) : bool :=
  let n := nat_of_ascii c in
  ((9 <=? n)%nat && (n <=? 13)%nat) || ((28 <=? n)%nat && (n <=? 32)%nat)
  || (n =? 133)%nat || (n =? 160)%nat.

(** [s.split()] *)
Fixpoint split_ws_aux (s : string) (cur : string) : list string :=
  match s with
  | EmptyString => if String.eqb cur "" then [] else [cur]
  | String c r =>
      if is_space c then
        (if String.eqb cur "" then [] else [cur]) ++ split_ws_aux r ""
      else split_ws_aux r (cur ++ String c EmptyString)
  end.
Definition split_ws (s : string) : list string := split_ws_aux s "".

(** [s.split(sep)] for a one-character separator. *)
Fixpoint split_on_aux (sep : ascii) (s : string) (cur : string) : list string :=
  match s with
  | EmptyString => [cur]
  | String c r =>
      if Ascii.eqb c sep then cur :: split_on_aux sep r ""
      else split_on_aux sep r (cur ++ String c EmptyString)
  end.
Definition split_on (sep : ascii) (s : string) : list string :=
  split_on_aux sep s "".

Fixpoint lstrip (s : string) : string :=
  match s with
  | String c r => if is_space c then lstrip r else s
  | EmptyString => EmptyString
  end.
Definition rev_string (s : string) : string :=
  string_of_list_ascii (rev (list_ascii_of_string s)).
(** [s.strip()] *)
Definition strip (s : string) : string := rev_string (lstrip (rev_string (lstrip s))).

(** [x.replace('\\', '/').split('/')[-1]] *)
Definition last_component (x : string) : string :=
  List.last (split_on "/" (PyStr.replace x "\" "/")) "".

(** [line.lower().startswith('mtllib')] *)
Definition is_mtllib (line : string) : bool := PyStr.startswith (lower line) "mtllib".

(** [f'mtllib {mtl_file}\n'] *)
Definition mtllib_line (mtl_file : string) : string := "mtllib " ++ mtl_file ++ nl.

(** The loop over [obj_lines] that rewrites the directives; returns the
    new lines and [mtl_written]. *)
Fixpoint rewrite_loop (mtl_file : string) (mtl_written : bool)
    (obj_lines : list string) : list string * bool :=
  match obj_lines with
  | [] => ([], mtl_written)
  | line :: rest =>
      if is_mtllib line then
        if mtl_written then rewrite_loop mtl_file true rest
        else let '(out, w) := rewrite_loop mtl_file true rest in
             (mtllib_line mtl_file :: out, w)
      else let '(out, w) := rewrite_loop mtl_file mtl_written rest in
           (line :: out, w)
  end.

(** The new content of the OBJ file: the loop, then
    [if not mtl_written: new_obj_lines.insert(0, ...)]. *)
Definition rewrite_mtllib (mtl_file : string) (obj_lines : list string)
  : list string :=
  let '(new_obj_lines, mtl_written) := rewrite_loop mtl_file false obj_lines in
  if mtl_written then new_obj_lines else mtllib_line mtl_file :: new_obj_lines.

Definition texture_prefixes : list string :=
  ["map_kd"; "map_ka"; "map_ks"; "map_ns"; "map_bump"; "map_d"; "map_normal";
   "map_normalgl"; "map_orm"; "map_roughness"; "map_metallic"; "map_ao";
   "map_emissive"; "map_opacity"; "map_displacement"; "map_height"].

Definition is_texture_line (line : string) : bool :=
  existsb (PyStr.startswith (strip (lower line))) texture_prefixes.

(** A file: text that [readlines()] decodes (its lines), or content that
    is not UTF-8 text.  A character of a line is a decoded code point;
    the model covers text whose code points are all below 256. *)
Inductive content := Text (lines : list string) | Binary.

Abbreviation fsys := (gmap string content).

Section Restore.
Variable TEMP_DIR : string.
(** [os.path.dirname], [os.path.join], [os.path.basename] on absolute,
    normalised paths (so [abspath] is the identity). *)
Variable dirname : string -> string.
Variable join : string -> string -> string.
Variable basename : string -> string.

Definition exists_ (fs : fsys) (p : string) : bool :=
  match fs !! p with Some _ => true | None => false end.

(** [safe_copy(src, dst_dir)]; [None]: [shutil.copy] raised. *)
Definition safe_copy (fs : fsys) (src dst_dir : string) : option fsys :=
  let dst := join dst_dir (basename src) in
  if String.eqb src dst then Some fs
  else match fs !! src with
       | Some c => Some (<[dst := c]> fs)
       | None => None
       end.

(** Search order: the temp directory, then the original's directory. *)
Definition resolve (fs : fsys) (orig_dir name : string) : option string :=
  let temp_path := join TEMP_DIR name in
  let orig_path := join orig_dir name in
  if exists_ fs temp_path then Some temp_path
  else if exists_ fs orig_path then Some orig_path
  else None.

(** The body of [for line in mtl_lines:]; errors of one texture are
    skipped ([continue]). *)
Definition copy_texture (orig_dir new_dir : string) (fs : fsys)
    (line : string) : fsys :=
  if is_texture_line line then
    let parts := split_ws line in
    if (1 <? length parts)%nat then
      let tex_file := last_component (List.last parts "") in
      match resolve fs orig_dir tex_file with
      | Some tex_source_path =>
          match safe_copy fs tex_source_path new_dir with
          | Some fs' => fs'
          | None => fs
          end
      | None => fs
      end
    else fs
  else fs.

Definition copy_textures (orig_dir new_dir : string) (fs : fsys)
    (mtl_source_path : string) : fsys :=
  match fs !! mtl_source_path with
  | Some (Text mtl_lines) =>
      fold_left (copy_texture orig_dir new_dir) mtl_lines fs
  | _ => fs   (** reading the MTL failed: [except Exception: pass] *)
  end.

(** The last [try]: rewrite the directives of the new OBJ. *)
Definition fix_obj_mtllib (fs : fsys) (obj_path mtl_file : string) : fsys :=
  match fs !! obj_path with
  | Some (Text obj_lines) => <[obj_path := Text (rewrite_mtllib mtl_file obj_lines)]> fs
  | _ => fs
  end.

(** [mtl_files = [line.split()[1] for line in lines if ...]]; an
    [IndexError] on a bare [mtllib] line is not caught. *)
Fixpoint mtl_files_of (lines : list string) : outcome (list string) :=
  match lines with
  | [] => Returned []
  | line :: rest =>
      if is_mtllib line then
        match nth_error (split_ws line) 1 with
        | None => Raised
        | Some name =>
            match mtl_files_of rest with
            | Raised => Raised
            | Returned names => Returned (name :: names)
            end
        end
      else mtl_files_of rest
  end.


(** [restore_obj_material(obj_path, original_obj_path)] *)
Definition restore_obj_material (fs : fsys) (obj_path original_obj_path : string)
  : outcome fsys :=
  let orig_dir := dirname original_obj_path in
  let new_dir := dirname obj_path in
  match fs !! original_obj_path with
  | None => Returned fs
  | Some Binary => Returned fs
  | Some (Text lines) =>
      match mtl_files_of lines with
      | Raised => Raised
      | Returned [] => Returned fs
      | Returned (first :: _) =>
          let mtl_file := last_component first in
          match resolve fs orig_dir mtl_file with
          | None => Returned fs
          | Some mtl_source_path =>
              match safe_copy fs mtl_source_path new_dir with
              | None => Returned fs
              | Some fs1 =>
                  let fs2 := copy_textures orig_dir new_dir fs1 mtl_source_path in
                  Returned (fix_obj_mtllib fs2 obj_path mtl_file)
              end
          end
      end
  end.
End Restore.

End Relink.

(** * Concrete scenarios used by the counterexamples *)
Module Scenarios.
Import Wait.

(** The writer is still flushing: flag present, 100 bytes at every poll,
    200 bytes two seconds later. *)
Definition flushing_probe (_ : nat) : probe_result :=
  {| done_flag_exists := true; out_exists := true; out_size := 100 |}.
Definition flushing_reprobe (_ : nat) : Z := 200.

(** C1 as stated: completion iff flag, non-empty output and a size
    unchanged on the follow-up check. *)
Definition completion_as_claimed (probe : nat -> probe_result)
    (reprobe : nat -> Z) : Prop :=
  exists w, (w < max_wait_time)%nat /\ done_flag_exists (probe w) = true /\
    out_exists (probe w) = true /\ 0 < out_size (probe w) /\
    reprobe w = out_size (probe w).

(** A mesh seen through its face count.  Every collapse without
    [autoclean] removes 1% of the faces (the decimation stalls); every
    collapse with [autoclean] raises. *)
Definition stall_lib : Decim.MeshLib Z := {|
  Decim.load_new_mesh := fun _ => Some 1000;
  Decim.face_number := fun m => m;
  Decim.quadric_collapse := fun p m =>
    if Decim.autoclean p then None else Some (m - m / 100);
  Decim.remove_duplicate_vertices := fun m => Some m;
  Decim.remove_duplicate_faces := fun m => Some m;
  Decim.remove_null_faces := fun m => Some m;
  Decim.has_tex_coord := fun _ => Some true;
  Decim.save_ok := fun _ _ => true
|}.

Definition no_timeout (_ : Z) : bool := false.




(** Collaborators of step 5 that all raise. *)
Definition raising_simplify (_ : string) (_ : Z) (_ : bool) : Decim.outcome string :=
  Decim.Raised.
Definition raising_restore (_ _ : string) : Decim.outcome unit := Decim.Raised.
Definition raising_repair (_ : string) : Decim.outcome string := Decim.Raised.
Definition raising_instant_meshes (_ _ : string) (_ : Z) : Decim.outcome unit :=
  Decim.Raised.

(** A watertight report with no issues and 10,000 faces. *)
Definition clean_report : Pipeline.report :=
  Pipeline.Report {| Pipeline.q_vertices := 5002; Pipeline.q_faces := 10000;
                     Pipeline.q_edges := 15000; Pipeline.q_watertight := true;
                     Pipeline.q_components := None; Pipeline.q_issues := [];
                     Pipeline.q_warnings := [] |}.

(** A body of [process_model] that records a temp file, then raises. *)
Definition failing_body (s : Pipeline.pstate) : Pipeline.body_outcome :=
  Pipeline.BodyRaised
    {| Pipeline.temp_files := Pipeline.temp_files s ++ ["/srv/temp/tmpa.obj"%string];
       Pipeline.files := Pipeline.files s ∪ {[ "/srv/temp/tmpa.obj"%string ]} |}.

Definition start_state : Pipeline.pstate :=
  {| Pipeline.temp_files := [];
     Pipeline.files := {[ "/srv/temp/tex.png"%string; "/srv/in/model.obj"%string;
                          "/srv/temp/sub/a.png"%string ]} |}.

(** POSIX path functions for the relinking scenario. *)
Definition posix_join (d n : string) : string := (d ++ "/" ++ n)%string.
Definition posix_basename (p : string) : string :=
  List.last (Relink.split_on "/" p) ""%string.
Definition posix_dirname (p : string) : string :=
  String.concat "/" (removelast (Relink.split_on "/" p)).

(** A reference OBJ with its material and texture, and a new OBJ carrying
    three [mtllib] lines. *)
Definition relink_fs : Relink.fsys :=
  <[ "/w/in/model.obj"%string :=
       Relink.Text ["mtllib model.mtl" ++ Relink.nl; "v 0 0 0" ++ Relink.nl]%string ]>
  (<[ "/w/in/model.mtl"%string :=
       Relink.Text ["newmtl m" ++ Relink.nl; "map_Kd tex.png" ++ Relink.nl]%string ]>
  (<[ "/w/in/tex.png"%string := Relink.Binary ]>
  (<[ "/w/out/model_uv.obj"%string :=
       Relink.Text ["mtllib a.mtl" ++ Relink.nl; "v 0 0 0" ++ Relink.nl;
                    "MTLLIB b.mtl" ++ Relink.nl; "mtllib c.mtl" ++ Relink.nl]%string ]>
   ∅))).

End Scenarios.

(** ** More of Python's [str] *)
Module PyText.

Local Open Scope string_scope.

(** [sub in s] *)
Fixpoint contains (sub s : string) : bool :=
  String.prefix sub s ||
  match s with
  | EmptyString => false
  | String _ r => contains sub r
  end.

(** [s.endswith(suf)] *)
Definition endswith (s suf : string) : bool :=
  Nat.leb (String.length suf) (String.length s) &&
  String.eqb (substring (String.length s - String.length suf)
                        (String.length suf) s) suf.

(** [x in xs] for a list of strings *)
Definition in_list (x : string) (xs : list string) : bool :=
  existsb (String.eqb x) xs.

(** [is_url(path)] *)
Definition is_url (path : string) : bool :=
  PyStr.startswith path "http://" || PyStr.startswith path "https://".

End PyText.

(** ** [enhanced_is_texture_file] (and [is_texture_file], which calls it)

    File names are taken to be ASCII, so that [Relink.lower] is Python's
    [str.lower()] and a character is a byte. *)
Module Texture.

Import PyText.
Local Open Scope string_scope.

(** File names are ASCII strings here: [lower] and [is_digit] are the
    ASCII parts of Python's [str.lower()] and [\d]. *)

Definition texture_extensions : list string :=
  [".jpg"; ".jpeg"; ".png"; ".bmp"; ".tga"; ".tiff"; ".tif";
   ".dds"; ".hdr"; ".exr"; ".webp"; ".ktx"; ".ktx2"; ".basis";
   ".psd"; ".targa"; ".sgi"; ".pic"; ".iff"; ".ppm"; ".pgm"; ".pbm"].

Definition non_texture_keywords : list string :=
  ["screenshot"; "capture"; "icon"; "logo"; "banner"; "thumb"; "preview";
   "ui"; "gui"; "button"; "menu"; "cursor"; "font"].

Definition texture_keywords : list string :=
  ["diffuse"; "albedo"; "basecolor"; "base_color"; "color"; "col"; "diff";
   "base"; "main"; "primary";
   "normal"; "normalgl"; "norm"; "nrm"; "bump"; "height"; "disp"; "displacement";
   "roughness"; "rough"; "rgh"; "gloss"; "glossiness";
   "metallic"; "metal"; "met"; "metalness";
   "specular"; "spec"; "reflection"; "refl";
   "ambient"; "ao"; "occlusion"; "cavity";
   "emission"; "emissive"; "emit"; "glow"; "light";
   "opacity"; "alpha"; "transparency"; "mask";
   "orm"; "rma"; "arm";
   "detail"; "micro"; "fine"; "secondary";
   "subsurface"; "sss"; "transmission"; "clearcoat";
   "anisotropy"; "sheen"; "iridescence";
   "texture"; "tex"; "map"; "material"; "mat"; "surface"; "skin";
   "material_"; "texture_"; "tex_"; "mat_"; "img_"; "image_"].

(** The words of [number_patterns]: [r'material\d+'], [r'texture\d+'], ... *)
Definition number_pattern_words : list string :=
  ["material"; "texture"; "tex"; "mat"; "img"; "image"; "map"; "surface"].

Definition common_image_exts : list string :=
  [".jpg"; ".jpeg"; ".png"; ".bmp"; ".tga"; ".tiff"].

Definition is_digit (c : ascii) : bool :=
  let n := nat_of_ascii c in Nat.leb 48 n && Nat.leb n 57.

(** [re.search(word + r'\d+', s)]: the word followed by a digit somewhere. *)
Fixpoint search_word_digits (word s : string) : bool :=
  (String.prefix word s &&
   match substring (String.length word) 1 s with
   | String c _ => is_digit c
   | EmptyString => false
   end)
  || match s with
     | EmptyString => false
     | String _ r => search_word_digits word r
     end.

Section Splitext.
(** [os.path.sep] and [os.path.altsep]: ['\\'] and ['/'] on Windows,
    ['/'] on POSIX. *)
Variable seps : list ascii.

(** [s.rfind(...)]: the index of the last matching character, or -1. *)
Fixpoint rfind_aux (f : ascii -> bool) (s : string) (i acc : Z) : Z :=
  match s with
  | EmptyString => acc
  | String c r => rfind_aux f r (i + 1) (if f c then i else acc)
  end.
Definition rfind (f : ascii -> bool) (s : string) : Z := rfind_aux f s 0 (-1).

Definition all_dots (s : string) : bool :=
  forallb (fun c => Ascii.eqb c ".") (list_ascii_of_string s).

(** [genericpath._splitext(p, sep, altsep, '.')]: leading dots of the
    last component do not start an extension. *)
Definition splitext (p : string) : string * string :=
  let sepIndex := rfind (fun c => existsb (Ascii.eqb c) seps) p in
  let dotIndex := rfind (fun c => Ascii.eqb c ".") p in
  if Z.ltb sepIndex dotIndex then
    let between := substring (Z.to_nat (sepIndex + 1))
                             (Z.to_nat (dotIndex - sepIndex - 1)) p in
    if all_dots between then (p, "")
    else (substring 0 (Z.to_nat dotIndex) p,
          substring (Z.to_nat dotIndex) (String.length p - Z.to_nat dotIndex) p)
  else (p, "").

(** [enhanced_is_texture_file(filename)] *)
Definition enhanced_is_texture_file (filename : string) : bool :=
  let lower_name := Relink.lower filename in
  if negb (existsb (endswith lower_name) texture_extensions) then false
  else if existsb (fun k => contains k lower_name) non_texture_keywords then false
  else if existsb (fun k => contains k lower_name) texture_keywords then true
  else if existsb (fun w => search_word_digits w lower_name) number_pattern_words
  then true
  else if Nat.leb (String.length (fst (splitext lower_name))) 12
          && existsb (endswith lower_name) texture_extensions then true
  else if existsb (endswith lower_name) common_image_exts then true
  else false.

(** [is_texture_file(filename)] *)
Definition is_texture_file (filename : string) : bool :=
  enhanced_is_texture_file filename.

End Splitext.

End Texture.

(** ** Collecting texture files: [collect_texture_files_from_directory]
    and [collect_all_texture_files] *)
Module Collect.

Import PyText.
Local Open Scope string_scope.

Section Dir.
Variable seps : list ascii.
(** [os.path.exists], [os.path.isdir], [os.path.isfile] *)
Variable path_exists isdir isfile : string -> bool.
(** [os.listdir]; [None]: it raised *)
Variable listdir : string -> option (list string).
Variable join : string -> string -> string.
Variable dirname basename : string -> string.
Variable TEMP_DIR : string.

(** The body of [for filename in os.listdir(directory)]: the list being
    returned and the caller's [collected_files], which it appends to. *)
Definition collect_step (directory : string)
    (acc : list string * list string) (filename : string)
  : list string * list string :=
  let '(texture_files, collected_files) := acc in
  let file_path := join directory filename in
  if isfile file_path && Texture.is_texture_file seps filename then
    if in_list file_path collected_files then acc
    else (app texture_files [file_path], app collected_files [file_path])
  else acc.

(** [collect_texture_files_from_directory(directory, collected_files)]:
    its result, and [collected_files] after the call. *)
Definition collect_texture_files_from_directory (directory : string)
    (collected_files : list string) : list string * list string :=
  if negb (path_exists directory) || negb (isdir directory)
  then ([], collected_files)
  else match listdir directory with
       | None => ([], collected_files)
       | Some names =>
           fold_left (collect_step directory) names ([], collected_files)
       end.

(** Step 2 of [collect_all_texture_files], on [all_texture_files] and
    [collected_paths]. *)
Definition collect_additional (acc : list string * list string)
    (file_path : string) : list string * list string :=
  let '(all_texture_files, collected_paths) := acc in
  if isfile file_path && Texture.is_texture_file seps (basename file_path) then
    if in_list file_path collected_paths then acc
    else (app all_texture_files [file_path], app collected_paths [file_path])
  else acc.

(** [collect_all_texture_files(input_model, additional_files)]; [None]
    for [additional_files] is the empty list. *)
Definition collect_all_texture_files (input_model : string)
    (additional_files : list string) : list string :=
  let '(all1, collected1) :=
    if isdir input_model then
      let '(tf, c) := collect_texture_files_from_directory input_model [] in
      (app [] tf, c)
    else if isfile input_model && negb (is_url input_model) then
      let '(tf, c) := collect_texture_files_from_directory (dirname input_model) [] in
      (app [] tf, c)
    else ([], []) in
  let '(all2, collected2) :=
    fold_left collect_additional additional_files (all1, collected1) in
  if path_exists TEMP_DIR then
    let '(tf, _) := collect_texture_files_from_directory TEMP_DIR collected2 in
    app all2 tf
  else all2.
End Dir.

End Collect.

(** ** [copy_folder_to_temp] *)
Module FolderCopy.

Import Decim Relink PyText.
Local Open Scope string_scope.

(** The outcome of [shutil.copy2(src, dst)], which is [copyfile] (the
    data) followed by [copystat] (the metadata).  [Copy2Raised (Some c)]:
    it raised after [dst] had been written with [c] (a [copystat] failure,
    or a write cut short); [Copy2Raised None]: it raised before touching
    [dst]. *)
Inductive copy2_result :=
| Copy2Done
| Copy2Raised (dst_left : option content).

Section Copy.
Variable TEMP_DIR : string.
Variable join : string -> string -> string.
(** [os.path.exists(p) and os.path.isdir(p)] *)
Variable isdir : string -> bool.
(** [os.listdir]; [None]: it raised.  The folder's listing is the same
    at both calls. *)
Variable listdir : string -> option (list string).
(** [shutil.copy2(src, dst)] on an existing file [src] of content [c] *)
Variable copy2 : string -> string -> content -> copy2_result.
(** whether [os.remove(p)] succeeds on an existing file *)
Variable remove_ok : string -> bool.




End Copy.

End FolderCopy.

(** ** The retry loop of [download_to_temp] *)
Module Download.

Import Decim.

(** What one pass of the [try] body ends with. *)
Inductive attempt_result :=
| Downloaded                 (** the body reached [return temp_path] *)
| HTTPStatus (code : Z)      (** [requests.exceptions.HTTPError] *)
| TimedOut                   (** [requests.exceptions.Timeout] *)
| ConnectionFailed           (** [requests.exceptions.ConnectionError] *)
| OtherError.                (** any other [Exception] *)

Definition max_retries : nat := 3.

(** [for attempt in range(max_retries)] from [attempt], with [remaining]
    passes left: the number of requests made and the outcome. *)
Fixpoint download_loop (ev : nat -> attempt_result) (attempt remaining : nat)
  : nat * outcome unit :=
  match remaining with
  | O => (O, Raised)   (** after the loop: [raise RuntimeError] *)
  | S r =>
      let continue_ := let '(n, o) := download_loop ev (S attempt) r in (S n, o) in
      let retry := if Nat.ltb attempt (max_retries - 1) then continue_
                   else (1%nat, Raised) in
      match ev attempt with
      | Downloaded => (1%nat, Returned tt)
      | HTTPStatus code =>
          if Z.eqb code 403 then retry
          else if Z.eqb code 404 then (1%nat, Raised)
          else if Z.eqb code 429 || Z.eqb code 503 then retry
          else (1%nat, Raised)
      | TimedOut | ConnectionFailed | OtherError => retry
      end
  end.

(** [download_to_temp(url)]: [ev k] is how attempt [k] ends. *)
Definition download_to_temp (ev : nat -> attempt_result) : nat * outcome unit :=
  download_loop ev 0 max_retries.

(** A failure the loop retries when attempts are left. *)
Definition retryable (a : attempt_result) : bool :=
  match a with
  | Downloaded => false
  | HTTPStatus code => Z.eqb code 403 || Z.eqb code 429 || Z.eqb code 503
  | TimedOut | ConnectionFailed | OtherError => true
  end.

End Download.

(** ** [clean_old_archives] *)
Module Archive.

Import Decim.

(** Naive local date-times as microseconds since [datetime.min]
    (0001-01-01 00:00); [datetime.max] is the last microsecond of
    9999-12-31, 3652059 days later. *)
Definition us_per_day : Z := 86400 * 1000000.
Definition datetime_end : Z := 3652059 * us_per_day.

(** An entry of [os.listdir(ARCHIVE_DIR)]. *)
Record entry := {
  e_name : string;
  (** [os.path.isdir(file_path)] *)
  e_isdir : bool;
  (** [fromtimestamp(getmtime(file_path))]; [None]: it raised *)
  e_mtime : option Z;
  (** whether [shutil.rmtree] succeeds *)
  e_rmtree_ok : bool
}.

(** The loop body: [deleted_count] and the entries left in place (an
    entry whose [rmtree] raised is counted as left). *)
Definition clean_step (cutoff_time : Z) (acc : Z * list entry) (e : entry)
  : Z * list entry :=
  let '(deleted_count, kept) := acc in
  if e_isdir e then
    match e_mtime e with
    | Some file_time =>
        if file_time <? cutoff_time then
          if e_rmtree_ok e then (deleted_count + 1, kept)
          else (deleted_count, app kept [e])
        else (deleted_count, app kept [e])
    | None => (deleted_count, app kept [e])
    end
  else (deleted_count, app kept [e]).

(** [clean_old_archives(days_to_keep)] when [datetime.now()] is [now]:
    the count returned and the entries left, or [Raised] when
    [now - timedelta(days=days_to_keep)] leaves the [datetime] range
    ([OverflowError]). *)
Definition clean_old_archives (archive_exists : bool) (entries : list entry)
    (now days_to_keep : Z) : outcome (Z * list entry) :=
  if negb archive_exists then Returned (0, entries)
  else
    let cutoff_time := now - days_to_keep * us_per_day in
    if (cutoff_time <? 0) || (datetime_end <=? cutoff_time) then Raised
    else Returned (fold_left (clean_step cutoff_time) entries (0, [])).

End Archive.

(** ** [ensure_textures_in_obj_dir] *)
Module EnsureTex.

Import Decim Relink.
Local Open Scope string_scope.

Section Ensure.
Variable TEMP_DIR : string.
Variable dirname : string -> string.
Variable join : string -> string -> string.
(** [os.path.splitext(os.path.basename(p))[0]] *)
Variable stem : string -> string.
(** [shutil.copy2(src, dst)] on an existing file [src] of content [c] *)
Variable copy2 : string -> string -> content -> FolderCopy.copy2_result.

(** The first [mtllib] line with a file name, read from the OBJ. *)
Fixpoint first_mtllib_name (lines : list string) : option string :=
  match lines with
  | [] => None
  | line :: rest =>
      if is_mtllib line then
        match split_ws line with
        | _ :: p1 :: _ => Some (last_component p1)
        | _ => first_mtllib_name rest
        end
      else first_mtllib_name rest
  end.

(** The MTL path the function settles on; [None]: reading the OBJ
    raised and it returned. *)
Definition ensure_mtl_path (fs : fsys) (obj_path : string) : option string :=
  let obj_dir := dirname obj_path in
  let mtl_path := join obj_dir (stem obj_path ++ ".mtl") in
  if exists_ fs mtl_path then Some mtl_path
  else match fs !! obj_path with
       | Some (Text lines) =>
           match first_mtllib_name lines with
           | Some referenced_mtl => Some (join obj_dir referenced_mtl)
           | None => Some mtl_path
           end
       | _ => None
       end.

(** The body of [for line in mtl_lines]: the file system,
    [updated_lines] and [textures_copied]. *)
Definition ensure_line (obj_dir : string)
    (acc : fsys * list string * list string) (line : string)
  : fsys * list string * list string :=
  let '(fs, updated_lines, textures_copied) := acc in
  if is_texture_line line then
    match split_ws line with
    | map_type :: _ :: _ =>
        let parts := split_ws line in
        let tex_filename := last_component (List.last parts "") in
        let target_tex_path := join obj_dir tex_filename in
        let '(fs', copied') :=
          if exists_ fs target_tex_path then (fs, textures_copied)
          else
            let temp_tex_path := join TEMP_DIR tex_filename in
            match fs !! temp_tex_path with
            | Some c =>
                match copy2 temp_tex_path target_tex_path c with
                | FolderCopy.Copy2Done =>
                    (<[target_tex_path := c]> fs, app textures_copied [tex_filename])
                | FolderCopy.Copy2Raised None => (fs, textures_copied)
                | FolderCopy.Copy2Raised (Some c') =>
                    (<[target_tex_path := c']> fs, textures_copied)
                end
            | None => (fs, textures_copied)
            end in
        if exists_ fs' target_tex_path
        then (fs', app updated_lines [map_type ++ " " ++ tex_filename ++ nl], copied')
        else (fs', app updated_lines [line], copied')
    | _ => (fs, app updated_lines [line], textures_copied)
    end
  else (fs, app updated_lines [line], textures_copied).

(** [ensure_textures_in_obj_dir(obj_path)] *)
Definition ensure_textures_in_obj_dir (fs : fsys) (obj_path : string) : fsys :=
  let obj_dir := dirname obj_path in
  match ensure_mtl_path fs obj_path with
  | None => fs
  | Some mtl_path =>
      if negb (exists_ fs mtl_path) then fs
      else match fs !! mtl_path with
           | Some (Text mtl_lines) =>
               let '(fs', updated_lines, textures_copied) :=
                 fold_left (ensure_line obj_dir) mtl_lines (fs, [], []) in
               match textures_copied with
               | [] => fs'
               | _ :: _ => <[mtl_path := Text updated_lines]> fs'
               end
           | _ => fs
           end
  end.
End Ensure.

End EnsureTex.

(** ** Step 6 of [process_model] *)
Module PipelineExt.

Import Decim Pipeline.

Section Step6.
Variable simplify_uv : string -> Z -> bool -> outcome string.
Variable restore : string -> string -> outcome unit.
Variable repair : string -> outcome string.
Variable instant_meshes : string -> string -> Z -> outcome unit.
Variable temp_output : string.
(** [check_mesh_quality(path)] at step 2 and at step 6 *)
Variable quality_of : string -> report.

(** Steps 2 to 6 of [process_model]: the quality of [final_obj], then the
    log line [f"Reduction ratio: {final_faces/original_faces:.2%}"]. *)
Definition process_through_step6 (obj_in : string) (target_faces : Z)
    (operation : string) (preserve_boundaries : bool) : outcome string :=
  let original_quality := quality_of obj_in in
  match process_core simplify_uv restore repair instant_meshes temp_output
          obj_in target_faces operation preserve_boundaries original_quality with
  | Raised => Raised
  | Returned (final_obj, _) =>
      let final_quality := quality_of final_obj in
      match PyFloat.truediv (get_faces final_quality) (get_faces original_quality) with
      | None => Raised
      | Some _ => Returned final_obj
      end
  end.
End Step6.

End PipelineExt.
(** ** Concrete inputs for the properties below *)
Module ExtraScenarios.
Import Decim Pipeline Relink Scenarios.
Local Open Scope string_scope.

(** A closed cube: 8 vertices, 12 faces, 18 edges. *)
Definition cube_tm : TriMesh unit := {|
  tm_load := fun _ => inl tt;
  tm_counts := fun _ => Some (8, 12, 18);
  tm_is_watertight := fun _ => true;
  tm_components := fun _ => Some 1;
  tm_area_below_0_001 := fun _ => false;
  tm_extreme_edges := fun _ => Some false
|}.

(** [check_mesh_quality] on a file trimesh cannot read. *)
Definition error_quality (_ : string) : report := ReportError "cannot parse".

Definition posix_seps : list ascii := ["/"%char].
Definition posix_stem (p : string) : string :=
  fst (Texture.splitext posix_seps (posix_basename p)).


(** An archive directory at day 100 (times in microseconds): a folder
    from day 10, one from day 95, a file, and a folder whose time cannot
    be read. *)
Definition archive_entries : list Archive.entry :=
  [ {| Archive.e_name := "old"; Archive.e_isdir := true;
       Archive.e_mtime := Some (10 * Archive.us_per_day); Archive.e_rmtree_ok := true |};
    {| Archive.e_name := "recent"; Archive.e_isdir := true;
       Archive.e_mtime := Some (95 * Archive.us_per_day); Archive.e_rmtree_ok := true |};
    {| Archive.e_name := "notes.txt"; Archive.e_isdir := false;
       Archive.e_mtime := Some (10 * Archive.us_per_day); Archive.e_rmtree_ok := true |};
    {| Archive.e_name := "locked"; Archive.e_isdir := true;
       Archive.e_mtime := None; Archive.e_rmtree_ok := true |} ].

(** An OBJ whose material names its texture by an absolute path, with
    the texture already next to the OBJ. *)
Definition ensure_fs : fsys :=
  <[ "/o/m.obj" := Text ["mtllib m.mtl" ++ nl; "v 0 0 0" ++ nl] ]>
  (<[ "/o/m.mtl" := Text ["newmtl m" ++ nl; "map_Kd /abs/wood.png" ++ nl] ]>
  (<[ "/o/wood.png" := Binary ]> ∅)).
Definition copy_always (_ _ : string) (_ : content) : FolderCopy.copy2_result :=
  FolderCopy.Copy2Done.

(** A reference OBJ with a second, bare [mtllib] line. *)
Definition bare_fs : fsys :=
  <[ "/w/in/bare.obj" := Text ["mtllib model.mtl" ++ nl; "mtllib" ++ nl; "v 0 0 0" ++ nl] ]>
  relink_fs.

End ExtraScenarios.
(** ** Invariants used in the properties below *)
Module Invariants.
Import Decim Relink.

(** The shared [collected_files] list: no path twice, every path a file. *)
Definition collected_ok (isfile : string -> bool) (c : list string) : Prop :=
  List.NoDup c /\ Forall (fun p => isfile p = true) c.

(** An archive entry [clean_old_archives] leaves in place: a file, a
    folder whose time cannot be read, or a folder not older than the
    cutoff. *)
Definition kept_always (cutoff_time : Z) (e : Archive.entry) : Prop :=
  Archive.e_isdir e = false \/ Archive.e_mtime e = None \/
  exists t, Archive.e_mtime e = Some t /\ cutoff_time <= t.

(** The loop of [ensure_textures_in_obj_dir] from [fs0]: it only adds
    files to [obj_dir]; while [textures_copied] is empty nothing was added
    but what a failed [shutil.copy2] left, and once it is not, a file was
    added. *)
Definition ensure_inv (join : string -> string -> string) (fs0 : fsys)
    (obj_dir : string) (acc : fsys * list string * list string) : Prop :=
  let '(fs1, _, textures_copied) := acc in
  (forall p, fs1 !! p = fs0 !! p \/ (fs0 !! p = None /\ exists tex, p = join obj_dir tex)) /\
  (textures_copied = [] -> fs1 = fs0 \/ exists p, fs0 !! p = None /\ is_Some (fs1 !! p)) /\
  (textures_copied <> [] -> exists p, fs0 !! p = None /\ is_Some (fs1 !! p)).

End Invariants.

(** * Properties *)

(** ** The Blender wait loop *)

Section WaitProofs.
Import Wait Scenarios.

Lemma wait_loop_spec (probe : nat -> probe_result) (reprobe : nat -> Z) :
  forall fuel w0,
    wait_loop probe reprobe fuel w0 = true <->
    exists w, (w0 <= w < w0 + fuel)%nat /\ poll_succeeds probe reprobe w = true.
Proof.
  induction fuel as [|fuel IH]; intros w0; simpl.
  - split; [discriminate | intros (w & Hw & _); lia].
  - unfold poll_succeeds, stable_ok.
    destruct (flag_ok probe w0) eqn:Hf.
    + split; [intros _; exists w0; rewrite Hf; split; [lia | reflexivity] | auto].
    + assert (Hstep : wait_loop probe reprobe fuel (S w0) = true <->
              exists w, (w0 <= w < w0 + S fuel)%nat /\ w <> w0 /\
                        poll_succeeds probe reprobe w = true).
      { rewrite IH. split.
        - intros (w & Hw & Hp). exists w. repeat split; [lia | lia | lia | exact Hp].
        - intros (w & Hw & Hne & Hp). exists w. split; [lia | exact Hp]. }
      unfold poll_succeeds, stable_ok in Hstep.
      match goal with
      | |- context [if ?b then (if _ then true else _) else _] => destruct b eqn:Hc
      end.
      * match goal with
        | |- context [if ?b then true else wait_loop _ _ _ _] => destruct b eqn:Hr
        end.
        -- split; [intros _; exists w0; split; [lia |] | auto].
           rewrite Hf, Hc. simpl. exact Hr.
        -- rewrite Hstep. split.
           ++ intros (w & Hw & _ & Hp). exists w. split; [exact Hw | exact Hp].
           ++ intros (w & Hw & Hp). exists w.
              destruct (Nat.eq_dec w w0) as [->|Hne].
              ** rewrite Hf, Hc in Hp. simpl in Hp.
                 rewrite Hr in Hp. discriminate.
              ** repeat split; auto; lia.
      * rewrite Hstep. split.
        -- intros (w & Hw & _ & Hp). exists w. split; [exact Hw | exact Hp].
        -- intros (w & Hw & Hp). exists w.
           destruct (Nat.eq_dec w w0) as [->|Hne].
           ++ rewrite Hf, Hc in Hp. discriminate.
           ++ repeat split; auto; lia.
Qed.

(** C1 (amended): the wait loop of [glb_to_obj_with_textures] (and the
    identical one of [obj_to_glb]) reports completion iff at some poll
    [w < 180] either the flag file exists and the output exists with a
    size above 0 (accepted at once, without a re-check of the size), or
    [w > 30], the output exists with a size above 0 and that size is
    unchanged after the extra 2 s wait (with or without the flag). *)
Theorem blender_completed_iff (probe : nat -> probe_result) (reprobe : nat -> Z) :
  blender_completed probe reprobe = true <->
  exists w, (w < max_wait_time)%nat /\
    ((done_flag_exists (probe w) && out_exists (probe w)
      && (0 <? size_at probe w)) = true
     \/ (out_exists (probe w) && (0 <? size_at probe w) && Nat.ltb 30 w
          && (reprobe w =? size_at probe w)) = true).
Proof.
  unfold blender_completed. rewrite wait_loop_spec.
  split.
  - intros (w & Hw & Hp). exists w. split; [lia |].
    unfold poll_succeeds, flag_ok, stable_ok in Hp.
    apply orb_true_iff in Hp as [Hp | Hp]; [left; exact Hp | right].
    apply andb_true_iff in Hp as [Hp _]. exact Hp.
  - intros (w & Hw & Hp). exists w. split; [lia |].
    unfold poll_succeeds, flag_ok, stable_ok.
    apply orb_true_iff. destruct Hp as [Hp | Hp]; [left; exact Hp | right].
    rewrite Hp. simpl.
    apply andb_true_iff in Hp as [Hp _]. apply andb_true_iff in Hp as [Hp _].
    apply andb_true_iff in Hp as [_ Hp]. exact Hp.
Qed.

(** C1 refuted: with the flag present the loop succeeds at the first poll
    although the size would have changed on a re-check. *)
Lemma blender_completed_without_recheck :
  ~ (forall probe reprobe,
        blender_completed probe reprobe = true <->
        completion_as_claimed probe reprobe).
Proof.
  intros H.
  destruct (proj1 (H flushing_probe flushing_reprobe) eq_refl)
    as (w & _ & _ & _ & _ & Heq).
  discriminate Heq.
Qed.

End WaitProofs.

(** ** Progressive decimation *)

Section DecimProofs.
Import Decim Scenarios.
Context {M : Type} `{MeshLib M}.

(** What the final precise collapse does to a loop state: it is called
    iff the face count is above the target, and a failed call leaves the
    mesh as it was. *)
Lemma ps_final_spec (target_faces : Z) (pb : bool) (s : loop_state) :
  ms_calls (ps_final target_faces pb s) = ms_calls (ls_ms s) ++
    (if ls_current s >? target_faces then [final_params target_faces pb] else []) /\
  ms_mesh (ps_final target_faces pb s) =
    if ls_current s >? target_faces then
      match quadric_collapse (final_params target_faces pb) (ms_mesh (ls_ms s)) with
      | Some m' => m'
      | None => ms_mesh (ls_ms s)
      end
    else ms_mesh (ls_ms s).
Proof.
  unfold ps_final, collapse.
  destruct (ls_current s >? target_faces); [| rewrite app_nil_r; split; reflexivity].
  destruct (quadric_collapse _ _); split; reflexivity.
Qed.

(** C2 (amended): one step whose new face count is not below 95% of the
    previous count ends the loop at once ([ExitInsufficient]); the loop
    state keeps the mesh that this stalled step produced, and the final
    collapse to [target_faces] is then called on that mesh iff its face
    count is above the target (a failed final collapse leaves it). *)
Theorem ps_loop_stops_after_one_stalled_step
    (target_faces : Z) (pb : bool) (timed_out : Z -> bool) (fuel : nat)
    (s : loop_state) (sixty : Z) (ms1 : meshset) :
  PyFloat.int_gt (ls_current s)
    (PyFloat.mul_int target_faces (PyFloat.lit 11 10)) = true ->
  (ls_step s <=? max_steps) = true ->
  timed_out (ls_step s) = false ->
  PyFloat.to_int (PyFloat.mul_int (ls_current s) (PyFloat.lit 6 10)) = Some sixty ->
  collapse (step_params (Z.max target_faces sixty) pb)
    (if ls_step s =? 1 then preclean (ls_ms s) else ls_ms s) = (ms1, true) ->
  PyFloat.int_ge (cur_faces ms1)
    (PyFloat.mul_int (ls_current s) (PyFloat.lit 95 100)) = true ->
  let s' := {| ls_ms := ms1; ls_current := cur_faces ms1;
               ls_step := ls_step s + 1 |} in
  ps_loop target_faces pb timed_out (S fuel) s = Returned (s', ExitInsufficient) /\
  ms_calls (ps_final target_faces pb s') = ms_calls ms1 ++
    (if cur_faces ms1 >? target_faces then [final_params target_faces pb] else []) /\
  ms_mesh (ps_final target_faces pb s') =
    if cur_faces ms1 >? target_faces then
      match quadric_collapse (final_params target_faces pb) (ms_mesh ms1) with
      | Some m' => m'
      | None => ms_mesh ms1
      end
    else ms_mesh ms1.
Proof.
  intros Hgt Hstep Hto Hsixty Hcol Hstall s'. split.
  - simpl. rewrite Hgt, Hstep, Hto, Hsixty. simpl.
    rewrite Hcol. simpl. rewrite Hstall. reflexivity.
  - exact (ps_final_spec target_faces pb s').
Qed.

(** C3 (amended): after the loop, the final collapse to exactly
    [target_faces] is called iff the face count is still above the
    target, whatever the reason the loop stopped; when it raises, the
    mesh the loop left is kept. *)
Theorem ps_final_collapse_iff_above_target
    (target_faces : Z) (pb : bool) (timed_out : Z -> bool)
    (ms ms' : meshset) (s : loop_state) (r : exit_reason) :
  ps_aggressive target_faces pb timed_out ms = Returned (ms', s, r) ->
  ms_calls ms' = ms_calls (ls_ms s) ++
    (if ls_current s >? target_faces then [final_params target_faces pb] else []) /\
  ms_mesh ms' =
    if ls_current s >? target_faces then
      match quadric_collapse (final_params target_faces pb) (ms_mesh (ls_ms s)) with
      | Some m' => m'
      | None => ms_mesh (ls_ms s)
      end
    else ms_mesh (ls_ms s).
Proof.
  unfold ps_aggressive.
  destruct (ps_loop _ _ _ _ _) as [|[s0 r0]]; [discriminate |].
  intros Heq; inversion Heq; subst; clear Heq.
  apply ps_final_spec.
Qed.


End DecimProofs.

Section DecimScenarios.
Import Decim Scenarios.

(** Witness of [ps_loop_stops_after_one_stalled_step]: 1000 faces, target
    100; the first step reaches only 990 faces, and the final collapse
    raises. *)
Lemma ps_loop_stops_after_one_stalled_step_witness :
  let ms1 := {| ms_mesh := 990; ms_calls := [step_params 600 true] |} in
  let s' := {| ls_ms := ms1; ls_current := @cur_faces Z stall_lib ms1; ls_step := 1 + 1 |} in
  @ps_loop Z stall_lib 100 true no_timeout 10
    {| ls_ms := {| ms_mesh := 1000; ms_calls := [] |};
       ls_current := 1000; ls_step := 1 |}
  = Returned (s', ExitInsufficient) /\
  ms_calls (@ps_final Z stall_lib 100 true s') = ms_calls ms1 ++
    (if @cur_faces Z stall_lib ms1 >? 100 then [final_params 100 true] else []) /\
  ms_mesh (@ps_final Z stall_lib 100 true s') =
    if @cur_faces Z stall_lib ms1 >? 100 then
      match @quadric_collapse Z stall_lib (final_params 100 true) (ms_mesh ms1) with
      | Some m' => m'
      | None => ms_mesh ms1
      end
    else ms_mesh ms1.
Proof.
  exact (@ps_loop_stops_after_one_stalled_step Z stall_lib 100 true no_timeout 9
           {| ls_ms := {| ms_mesh := 1000; ms_calls := [] |};
              ls_current := 1000; ls_step := 1 |} 600
           {| ms_mesh := 990; ms_calls := [step_params 600 true] |}
           ltac:(vm_compute; reflexivity) ltac:(vm_compute; reflexivity)
           ltac:(vm_compute; reflexivity) ltac:(vm_compute; reflexivity)
           ltac:(vm_compute; reflexivity) ltac:(vm_compute; reflexivity)).
Defined.

(** C2 refuted: the first step stalls (1000 to 990 faces), the loop stops
    after that single step, and the result keeps the stalled step's 990
    faces instead of returning to the 1000 faces before it (the final
    collapse raises here, so nothing changes it afterwards). *)
Lemma progressive_simplify_keeps_stalled_step :
  @progressive_simplify Z stall_lib "m.obj" 100 true no_timeout
  = Returned ("m_simplified.obj"%string,
              {| ms_mesh := 990;
                 ms_calls := [step_params 600 true; final_params 100 true] |}).
Proof. vm_compute. reflexivity. Qed.

(** C3 refuted: the loop exits for insufficient progress with 990 faces,
    above the target 100, and the final collapse to 100 is still called. *)
Lemma final_collapse_after_insufficient_progress :
  @ps_aggressive Z stall_lib 100 true no_timeout {| ms_mesh := 1000; ms_calls := [] |}
  = Returned ({| ms_mesh := 990;
                 ms_calls := [step_params 600 true; final_params 100 true] |},
              {| ls_ms := {| ms_mesh := 990; ms_calls := [step_params 600 true] |};
                 ls_current := 990; ls_step := 2 |},
              ExitInsufficient).
Proof. vm_compute. reflexivity. Qed.

(** Witness of [ps_final_collapse_iff_above_target]. *)
Lemma ps_final_collapse_iff_above_target_witness :
  let s := {| ls_ms := {| ms_mesh := 990; ms_calls := [step_params 600 true] |};
              ls_current := 990; ls_step := 2 |} in
  let ms' := {| ms_mesh := 990;
                ms_calls := [step_params 600 true; final_params 100 true] |} in
  ms_calls ms' = ms_calls (ls_ms s) ++
    (if ls_current s >? 100 then [final_params 100 true] else []) /\
  ms_mesh ms' =
    if ls_current s >? 100 then
      match @quadric_collapse Z stall_lib (final_params 100 true) (ms_mesh (ls_ms s)) with
      | Some m' => m'
      | None => ms_mesh (ls_ms s)
      end
    else ms_mesh (ls_ms s).
Proof.
  exact (@ps_final_collapse_iff_above_target Z stall_lib 100 true no_timeout
           {| ms_mesh := 1000; ms_calls := [] |}
           {| ms_mesh := 990;
              ms_calls := [step_params 600 true; final_params 100 true] |}
           {| ls_ms := {| ms_mesh := 990; ms_calls := [step_params 600 true] |};
              ls_current := 990; ls_step := 2 |} ExitInsufficient
           ltac:(vm_compute; reflexivity)).
Defined.



End DecimScenarios.

(** ** Analysis and selection in [process_model] *)

Section PipelineProofs.
Import Decim Pipeline Scenarios.

(** C4: with more faces than the target and [operation = "auto"], the
    simplify branch is taken iff the report says watertight and its issues
    list is empty; otherwise the remesh branch. *)
Theorem auto_selects_simplify_iff_clean (target_faces : Z) (r : report) :
  target_faces < get_faces r ->
  process_branch "auto" target_faces r =
  if get_watertight r && (match get_issues r with [] => true | _ => false end)
  then SimplifyBranch else RemeshBranch.
Proof.
  intros Hlt. unfold process_branch, select_operation. simpl.
  replace (get_faces r <=? target_faces) with false by (symmetry; apply Z.leb_gt; lia).
  destruct (get_watertight r); [| reflexivity].
  destruct (get_issues r); reflexivity.
Qed.

Lemma auto_selects_simplify_iff_clean_witness :
  process_branch "auto" 5000 clean_report =
  if get_watertight clean_report
     && (match get_issues clean_report with [] => true | _ => false end)
  then SimplifyBranch else RemeshBranch.
Proof. apply auto_selects_simplify_iff_clean. vm_compute. reflexivity. Defined.




(** C6: at most [target_faces] faces: no processing branch, the mesh
    passed on is the input mesh, and no simplify, repair, remesh or
    restore call is made. *)
Theorem no_processing_at_or_below_target
    (simplify_uv : string -> Z -> bool -> outcome string)
    (restore : string -> string -> outcome unit)
    (repair : string -> outcome string)
    (instant_meshes : string -> string -> Z -> outcome unit)
    (temp_output obj_in : string) (target_faces : Z)
    (operation : string) (pb : bool) (r : report) :
  get_faces r <= target_faces ->
  process_branch operation target_faces r = NoProcessing /\
  process_core simplify_uv restore repair instant_meshes temp_output
    obj_in target_faces operation pb r = Returned (obj_in, []).
Proof.
  intros Hle. unfold process_core, process_branch.
  replace (get_faces r <=? target_faces) with true by (symmetry; apply Z.leb_le; lia).
  split; reflexivity.
Qed.

Lemma no_processing_at_or_below_target_witness :
  process_branch "auto" 10000 clean_report = NoProcessing /\
  process_core raising_simplify raising_restore raising_repair
    raising_instant_meshes "tmp.obj" "in.obj" 10000 "auto" true clean_report
  = Returned ("in.obj"%string, []).
Proof. apply no_processing_at_or_below_target. vm_compute. discriminate. Defined.


End PipelineProofs.

(** ** Cleanup on the failure path *)


Section CleanupStrings.
Import Pipeline.
Local Open Scope string_scope.

Lemma str_app_cons (x : ascii) (a b : string) : String x a ++ b = String x (a ++ b).
Proof. reflexivity. Qed.

Lemma str_app_assoc (a b c : string) : (a ++ b) ++ c = a ++ (b ++ c).
Proof. induction a as [|x a IH]; [reflexivity | exact (f_equal (String x) IH)]. Qed.

Lemma prefix_app_l (a b : string) : String.prefix a (a ++ b) = true.
Proof.
  induction a as [|x a IH]; [destruct b; reflexivity |].
  rewrite str_app_cons. simpl.
  destruct (ascii_dec x x); [exact IH | contradiction].
Qed.


Lemma prefix_inv (a q : string) :
  String.prefix a q = true -> exists r, q = a ++ r.
Proof.
  revert q. induction a as [|x a IH]; intros q Hp; [exists q; reflexivity |].
  destruct q as [|y q]; simpl in Hp; [discriminate |].
  destruct (ascii_dec x y) as [<- |]; [| discriminate].
  destruct (IH q Hp) as [r ->]. exists r. reflexivity.
Qed.




Lemma entry_of_in_temp_dir (TEMP_DIR p : string) :
  in_temp_dir TEMP_DIR (entry_of TEMP_DIR p) = true.
Proof.
  unfold in_temp_dir, entry_of. rewrite <- str_app_assoc. apply prefix_app_l.
Qed.

Lemma under_in_temp_dir (TEMP_DIR d p : string) :
  in_temp_dir TEMP_DIR d = true -> under d p = true -> in_temp_dir TEMP_DIR p = true.
Proof.
  unfold in_temp_dir, under. intros Hd Hp.
  destruct (prefix_inv _ _ Hd) as [r ->].
  destruct (prefix_inv _ _ Hp) as [z ->].
  rewrite (str_app_assoc (_ ++ r)), (str_app_assoc (TEMP_DIR ++ "/")).
  apply prefix_app_l.
Qed.

End CleanupStrings.

Section CleanupSets.
Import Pipeline.
Variable TEMP_DIR : string.
Variable remove_ok : string -> bool.
Variable listdir_ok : bool.

Lemma remove_file_spec (fs : gset string) (f p : string) :
  p ∈ remove_file remove_ok fs f <-> p ∈ fs /\ (p = f -> remove_ok p = false).
Proof.
  unfold remove_file. destruct (decide (f ∈ fs)) as [Hf | Hf].
  - destruct (remove_ok f) eqn:Hok.
    + rewrite elem_of_difference, elem_of_singleton.
      split; [intros [Hp Hne]; split; [exact Hp | intros ->; contradiction] |].
      intros [Hp Himp]. split; [exact Hp | intros ->; rewrite Himp in Hok; discriminate (eq_refl true) || congruence].
    + split; [intros Hp; split; [exact Hp | intros ->; exact Hok] | intros [Hp _]; exact Hp].
  - split; [intros Hp; split; [exact Hp | intros ->; contradiction] | intros [Hp _]; exact Hp].
Qed.

Lemma remove_temp_files_spec (tf : list string) :
  forall fs p, p ∈ remove_temp_files remove_ok tf fs <->
    p ∈ fs /\ (In p tf -> remove_ok p = false).
Proof.
  unfold remove_temp_files.
  induction tf as [|f tf IH]; intros fs p; cbn [fold_left].
  - split; [intros Hp; split; [exact Hp | intros []] | intros [Hp _]; exact Hp].
  - rewrite IH, remove_file_spec.
    split.
    + intros [[Hp H1] H2]. split; [exact Hp |].
      intros [-> | Hin]; [apply H1; reflexivity | apply H2; exact Hin].
    + intros [Hp H]. split; [split; [exact Hp | intros ->; apply H; left; reflexivity] |].
      intros Hin. apply H. right. exact Hin.
Qed.

Lemma rmtree_loop_spec (l : list string) :
  forall fs p, p ∈ rmtree_loop remove_ok l fs ->
    p ∈ fs /\ (In p l -> remove_ok p = false \/ exists f, In f l /\ remove_ok f = false).
Proof.
  induction l as [|f l IH]; intros fs p Hp; simpl in Hp.
  - split; [exact Hp | intros []].
  - destruct (remove_ok f) eqn:Hok.
    + apply IH in Hp as [Hp Himp]. apply elem_of_difference in Hp as [Hp Hne].
      split; [exact Hp |]. intros [-> | Hin]; [set_solver |].
      destruct (Himp Hin) as [H | [g [Hg Hgok]]]; [left; exact H |].
      right. exists g. split; [right; exact Hg | exact Hgok].
    + split; [exact Hp |]. intros _. right. exists f. split; [left; reflexivity | exact Hok].
Qed.

(** A path is removed only if its removal succeeds. *)
Lemma rmtree_loop_keeps (l : list string) :
  forall fs p, p ∈ fs -> remove_ok p = false -> p ∈ rmtree_loop remove_ok l fs.
Proof.
  induction l as [|f l IH]; intros fs p Hp Hok; simpl; [exact Hp |].
  destruct (remove_ok f) eqn:Hf; [| exact Hp].
  apply IH; [| exact Hok]. apply elem_of_difference. split; [exact Hp |].
  rewrite elem_of_singleton. intros ->. congruence.
Qed.


Lemma rmtree_loop_not_in (l : list string) :
  forall fs p, ~ In p l -> p ∈ fs -> p ∈ rmtree_loop remove_ok l fs.
Proof.
  induction l as [|f l IH]; intros fs p Hl Hp; simpl; [exact Hp |].
  destruct (remove_ok f); [| exact Hp].
  apply IH; [intros H; apply Hl; right; exact H |].
  apply elem_of_difference. split; [exact Hp |].
  rewrite elem_of_singleton. intros ->. apply Hl. left. reflexivity.
Qed.

Lemma rmtree_loop_subset (l : list string) :
  forall fs p, p ∈ rmtree_loop remove_ok l fs -> p ∈ fs.
Proof. intros fs p Hp. exact (proj1 (rmtree_loop_spec l fs p Hp)). Qed.

(** [clean_entry] removes [file_path] or paths under it, and only those
    whose removal succeeds. *)
Lemma clean_entry_removes_only (fs : gset string) (e p : string) :
  p ∈ fs -> p ∉ clean_entry remove_ok fs e ->
  remove_ok p = true /\ (p = e \/ under e p = true).
Proof.
  intros Hp Hnot. unfold clean_entry in Hnot.
  destruct (decide (e ∈ fs)).
  - destruct (remove_ok p) eqn:Hok.
    + split; [reflexivity |]. left.
      destruct (decide (p = e)) as [-> | Hne]; [reflexivity |].
      exfalso. apply Hnot. apply remove_file_spec. split; [exact Hp | intros Heq; contradiction].
    + exfalso. apply Hnot. apply remove_file_spec. split; [exact Hp | intros _; exact Hok].
  - destruct (existsb (under e) (elements fs)); [| contradiction].
    unfold rmtree in Hnot.
    destruct (remove_ok p) eqn:Hok.
    + split; [reflexivity |]. right.
      destruct (under e p) eqn:Hu; [reflexivity |].
      exfalso. apply Hnot.
      apply rmtree_loop_not_in; [| exact Hp].
      rewrite filter_In. intros [_ H]. congruence.
    + exfalso. apply Hnot. apply rmtree_loop_keeps; [exact Hp | exact Hok].
Qed.

Lemma clean_entry_subset (fs : gset string) (e p : string) :
  p ∈ clean_entry remove_ok fs e -> p ∈ fs.
Proof.
  unfold clean_entry. destruct (decide (e ∈ fs)).
  - intros Hp. apply remove_file_spec in Hp as [Hp _]. exact Hp.
  - destruct (existsb _ _); [apply rmtree_loop_subset | exact id].
Qed.


Lemma clean_fold_subset (E : list string) :
  forall fs p, p ∈ fold_left (clean_entry remove_ok) E fs -> p ∈ fs.
Proof.
  induction E as [|e E IH]; intros fs p Hp; cbn [fold_left] in Hp; [exact Hp |].
  exact (clean_entry_subset fs e p (IH _ _ Hp)).
Qed.

Lemma clean_fold_removes_only (E : list string) :
  forall fs p, p ∈ fs -> p ∉ fold_left (clean_entry remove_ok) E fs ->
  remove_ok p = true /\ exists e, In e E /\ (p = e \/ under e p = true).
Proof.
  induction E as [|e E IH]; intros fs p Hp Hnot; cbn [fold_left] in Hnot; [contradiction |].
  destruct (decide (p ∈ clean_entry remove_ok fs e)) as [Hin | Hout].
  - destruct (IH _ _ Hin Hnot) as [Hok [e' [He' Hp']]].
    split; [exact Hok |]. exists e'. split; [right; exact He' | exact Hp'].
  - destruct (clean_entry_removes_only fs e p Hp Hout) as [Hok Hp'].
    split; [exact Hok |]. exists e. split; [left; reflexivity | exact Hp'].
Qed.


Lemma temp_entries_in_temp_dir (fs : gset string) (e : string) :
  In e (temp_entries TEMP_DIR fs) -> in_temp_dir TEMP_DIR e = true.
Proof.
  unfold temp_entries. intros He.
  apply list_elem_of_In, elem_of_remove_dups, list_elem_of_In, in_map_iff in He as [q [<- _]].
  apply entry_of_in_temp_dir.
Qed.


Lemma clean_temp_subset (fs : gset string) (p : string) :
  p ∈ clean_temp_directory TEMP_DIR remove_ok listdir_ok fs -> p ∈ fs.
Proof.
  unfold clean_temp_directory. destruct listdir_ok; [apply clean_fold_subset | exact id].
Qed.

(** [clean_temp_directory] removes only paths of [TEMP_DIR] whose removal
    succeeds. *)
Lemma clean_temp_removes_only (fs : gset string) (p : string) :
  p ∈ fs -> p ∉ clean_temp_directory TEMP_DIR remove_ok listdir_ok fs ->
  remove_ok p = true /\ in_temp_dir TEMP_DIR p = true.
Proof.
  unfold clean_temp_directory. intros Hp Hnot. destruct listdir_ok; [| contradiction].
  destruct (clean_fold_removes_only _ _ _ Hp Hnot) as [Hok [e [He [-> | Hu]]]];
    split; try exact Hok.
  - exact (temp_entries_in_temp_dir _ _ He).
  - exact (under_in_temp_dir _ _ _ (temp_entries_in_temp_dir _ _ He) Hu).
Qed.


End CleanupSets.

Section CleanupFrame.
Import Pipeline.
Variable TEMP_DIR : string.
Variable remove_ok : string -> bool.
Variable listdir_ok : bool.


Lemma clean_temp_keeps_outside (fs : gset string) (p : string) :
  p ∈ fs -> in_temp_dir TEMP_DIR p = false ->
  p ∈ clean_temp_directory TEMP_DIR remove_ok listdir_ok fs.
Proof.
  intros Hp Ht. destruct (decide (p ∈ clean_temp_directory TEMP_DIR remove_ok listdir_ok fs))
    as [Hin | Hout]; [exact Hin |].
  destruct (clean_temp_removes_only TEMP_DIR remove_ok listdir_ok fs p Hp Hout) as [_ Ht'].
  congruence.
Qed.
End CleanupFrame.

Section CleanupProofs.
Import Pipeline Scenarios.
Local Open Scope string_scope.



(** X7: the emergency cleanup of [process_model] leaves every file outside
    [TEMP_DIR] that is neither a recorded temp file nor [log_file] as it
    was. *)
Theorem cleanup_keeps_outside_files (TEMP_DIR log_file : string) (log_ok : bool)
    (remove_ok : string -> bool) (listdir_ok : bool)
    (body : pstate -> body_outcome) (s0 s1 : pstate) (p : string) :
  body s0 = BodyRaised s1 ->
  ~ In p (temp_files s1) ->
  in_temp_dir TEMP_DIR p = false ->
  p <> log_file ->
  exists s2,
    process_model_guarded TEMP_DIR log_file log_ok remove_ok listdir_ok body s0
      = BodyRaised s2 /\
    (p ∈ files s2 <-> p ∈ files s1).
Proof.
  intros Hbody Hnot Hout Hne. unfold process_model_guarded. rewrite Hbody.
  eexists. split; [reflexivity |].
  unfold emergency_cleanup. destruct log_ok; [| reflexivity]. cbn [files].
  split.
  - intros Hp. apply clean_temp_subset, remove_temp_files_spec in Hp as [Hp _].
    set_solver.
  - intros Hp. apply clean_temp_keeps_outside; [| exact Hout].
    apply remove_temp_files_spec. split; [set_solver | intros Hin; contradiction].
Qed.


(** Witness of [cleanup_keeps_outside_files]. *)
Lemma cleanup_keeps_outside_files_witness :
  exists s2,
    process_model_guarded "/srv/temp" "/srv/logs/log.txt" true (fun _ => true) true
      failing_body start_state = BodyRaised s2 /\
    ("/srv/in/model.obj" ∈ files s2 <->
     "/srv/in/model.obj" ∈ files (match failing_body start_state with
                                  | BodyRaised s | BodyReturned s => s end)).
Proof.
  apply (cleanup_keeps_outside_files "/srv/temp" "/srv/logs/log.txt" true (fun _ => true) true
           failing_body start_state
           (match failing_body start_state with BodyRaised s | BodyReturned s => s end)
           "/srv/in/model.obj").
  - vm_compute. reflexivity.
  - vm_compute. intros [Heq | []]. discriminate.
  - vm_compute. reflexivity.
  - discriminate.
Defined.
End CleanupProofs.

(** ** The Instant Meshes command line *)

Section RemeshProofs.
Import Decim Remesh.

(** C10: the command starts with the input, output and face-count
    arguments; the face count is [int(target_faces * 0.8)] in the
    ["coarse"] mode and [target_faces] itself in every other mode. *)
Theorem instant_meshes_face_count_arg
    (INSTANT_MESHES_PATH obj_in obj_out : string) (target_faces : Z)
    (extra_options : list (string * optval)) (mode : string) :
  match build_cmd INSTANT_MESHES_PATH obj_in obj_out target_faces extra_options mode with
  | Returned cmd =>
      exists n rest,
        cmd = [AStr INSTANT_MESHES_PATH; AStr "-i"; AStr obj_in; AStr "-o";
               AStr obj_out; AStr "--faces"; AInt n] ++ rest /\
        ((String.eqb mode "coarse" = true /\
          PyFloat.to_int (PyFloat.mul_int target_faces (PyFloat.lit 8 10)) = Some n) \/
         (String.eqb mode "coarse" = false /\ n = target_faces))
  | Raised =>
      String.eqb mode "coarse" = true /\
      PyFloat.to_int (PyFloat.mul_int target_faces (PyFloat.lit 8 10)) = None
  end.
Proof.
  unfold build_cmd.
  destruct (String.eqb mode "fine") eqn:Hfine.
  { assert (Hc : String.eqb mode "coarse" = false)
      by (apply String.eqb_eq in Hfine; subst; reflexivity).
    do 2 eexists. split; [reflexivity | right; split; [exact Hc | reflexivity]]. }
  destruct (String.eqb mode "coarse") eqn:Hcoarse.
  { destruct (PyFloat.to_int _) as [n|] eqn:Hn; [| split; reflexivity].
    do 2 eexists. split; [reflexivity | left; split; reflexivity]. }
  destruct (String.eqb mode "fix_holes");
    do 2 eexists; (split; [reflexivity | right; split; reflexivity]).
Qed.

(** The coarse mode asks for 20% fewer faces: 4,000 for a target of 5,000. *)
Example instant_meshes_coarse_5000 :
  build_cmd "Instant Meshes.exe" "in.obj" "out.obj" 5000 [] "coarse" =
  Returned [AStr "Instant Meshes.exe"; AStr "-i"; AStr "in.obj"; AStr "-o";
            AStr "out.obj"; AStr "--faces"; AInt 4000; AStr "-d"].
Proof. vm_compute. reflexivity. Qed.

End RemeshProofs.

(** ** Relinking the material library *)

Section RelinkProofs.
Import Decim Relink Scenarios.
Local Open Scope string_scope.

Lemma lower_app (s1 s2 : string) : lower (s1 ++ s2) = lower s1 ++ lower s2.
Proof. induction s1 as [|c s1 IH]; simpl; [reflexivity | rewrite IH; reflexivity]. Qed.

Lemma is_mtllib_mtllib_line (mtl_file : string) : is_mtllib (mtllib_line mtl_file) = true.
Proof. unfold is_mtllib, mtllib_line. rewrite lower_app. reflexivity. Qed.







(** Zero, one and three directives all end as one. *)
Example rewrite_mtllib_zero :
  rewrite_mtllib "m.mtl" ["v 0 0 0" ++ nl] = [mtllib_line "m.mtl"; "v 0 0 0" ++ nl].
Proof. reflexivity. Qed.

Example rewrite_mtllib_three :
  rewrite_mtllib "m.mtl"
    ["mtllib a.mtl" ++ nl; "v 0 0 0" ++ nl; "mtllib b.mtl" ++ nl; "MtlLib c.mtl" ++ nl]
  = [mtllib_line "m.mtl"; "v 0 0 0" ++ nl].
Proof. reflexivity. Qed.



End RelinkProofs.

(** ** More of the program *)

Section DecimExtra.
Import Decim.
Context {M : Type} `{MeshLib M}.

Lemma preclean_calls (ms : meshset) : ms_calls (preclean ms) = ms_calls ms.
Proof.
  unfold preclean.
  destruct (remove_duplicate_vertices _) as [m1|]; [| reflexivity].
  destruct (remove_duplicate_faces m1) as [m2|]; [| reflexivity].
  destruct (remove_null_faces m2); reflexivity.
Qed.

Lemma collapse_calls (p : collapse_params) (ms ms' : meshset) (ok : bool) :
  collapse p ms = (ms', ok) -> ms_calls ms' = ms_calls ms ++ [p].
Proof.
  unfold collapse. destruct (quadric_collapse p (ms_mesh ms));
    intros Heq; inversion Heq; reflexivity.
Qed.

Lemma ps_loop_calls (target_faces : Z) (pb : bool) (timed_out : Z -> bool)
    (fuel : nat) : forall s s' r,
  ps_loop target_faces pb timed_out fuel s = Returned (s', r) ->
  exists new, ms_calls (ls_ms s') = ms_calls (ls_ms s) ++ new /\
    Forall (fun c => target_faces <= targetfacenum c) new /\
    Z.of_nat (length new) <= Z.max 0 (11 - ls_step s).
Proof.
  induction fuel as [|f IH]; intros s s' r Hrun; simpl in Hrun.
  { inversion Hrun; subst. exists []. rewrite app_nil_r. repeat split; [constructor | simpl; lia]. }
  destruct (negb _); [inversion Hrun; subst; exists []; rewrite app_nil_r; repeat split; [constructor | simpl; lia] |].
  destruct (negb (ls_step s <=? max_steps)) eqn:Hcap;
    [inversion Hrun; subst; exists []; rewrite app_nil_r; repeat split; [constructor | simpl; lia] |].
  apply negb_false_iff, Z.leb_le in Hcap. unfold max_steps in Hcap.
  destruct (timed_out (ls_step s));
    [inversion Hrun; subst; exists []; rewrite app_nil_r; repeat split; [constructor | simpl; lia] |].
  destruct (PyFloat.to_int _) as [sixty|]; [| discriminate].
  set (ms0 := if ls_step s =? 1 then preclean (ls_ms s) else ls_ms s) in Hrun.
  assert (H0 : ms_calls ms0 = ms_calls (ls_ms s)).
  { unfold ms0. destruct (ls_step s =? 1); [apply preclean_calls | reflexivity]. }
  destruct (collapse _ ms0) as [ms1 ok] eqn:Hc.
  apply collapse_calls in Hc. rewrite H0 in Hc.
  set (p := step_params (Z.max target_faces sixty) pb) in Hc.
  assert (Hp : target_faces <= targetfacenum p) by (simpl; lia).
  assert (Hone : forall s'', ls_ms s'' = ms1 ->
    exists new, ms_calls (ls_ms s'') = ms_calls (ls_ms s) ++ new /\
      Forall (fun c => target_faces <= targetfacenum c) new /\
      Z.of_nat (length new) <= Z.max 0 (11 - ls_step s)).
  { intros s'' ->. exists [p]. repeat split; [exact Hc | constructor; [exact Hp | constructor] | simpl; lia]. }
  destruct (negb ok); [inversion Hrun; subst; apply Hone; reflexivity |].
  destruct (PyFloat.int_ge _ _); [inversion Hrun; subst; apply Hone; reflexivity |].
  destruct (cur_faces ms1 <=? 0); [inversion Hrun; subst; apply Hone; reflexivity |].
  destruct (PyFloat.int_le _ _); [inversion Hrun; subst; apply Hone; reflexivity |].
  apply IH in Hrun as (new & Hcalls & Hall & Hlen). simpl in Hcalls, Hlen.
  exists (p :: new). rewrite Hcalls, Hc, <- app_assoc. repeat split.
  - constructor; assumption.
  - simpl length. lia.
Qed.

(** The collapse calls of one run of [progressive_simplify]. *)
Lemma progressive_simplify_calls (input_path : string) (target_faces : Z)
    (pb : bool) (timed_out : Z -> bool) (p : string) (ms : meshset) :
  progressive_simplify input_path target_faces pb timed_out = Returned (p, ms) ->
  (length (ms_calls ms) <= 11)%nat /\
  Forall (fun c => target_faces <= targetfacenum c) (ms_calls ms).
Proof.
  unfold progressive_simplify.
  destruct (load_new_mesh input_path) as [m|]; [| discriminate].
  destruct (_ <=? target_faces); [intros Heq; inversion Heq; subst; simpl; split; [lia | constructor] |].
  destruct (PyFloat.truediv _ _) as [ratio|]; [| discriminate].
  destruct (PyFloat.ltb ratio _).
  - unfold ps_aggressive.
    destruct (ps_loop _ _ _ 11 _) as [|[s r]] eqn:Hloop; [discriminate |].
    apply ps_loop_calls in Hloop as (new & Hcalls & Hall & Hlen). simpl in Hcalls, Hlen.
    assert (Hfin : exists last, ms_calls (ps_final target_faces pb s) = ms_calls (ls_ms s) ++ last /\
      (length last <= 1)%nat /\ Forall (fun c => target_faces <= targetfacenum c) last).
    { unfold ps_final. destruct (ls_current s >? target_faces).
      - destruct (collapse _ (ls_ms s)) as [ms1 ok] eqn:Hc. apply collapse_calls in Hc.
        exists [final_params target_faces pb]. simpl fst. rewrite Hc.
        repeat split; [simpl; lia | constructor; [simpl; lia | constructor]].
      - exists []. rewrite app_nil_r. repeat split; [simpl; lia | constructor]. }
    destruct Hfin as (last & Hf & Hl & Hfa).
    destruct (save_ok _ _); intros Heq; inversion Heq; subst.
    rewrite Hf. split.
    + rewrite length_app. lia.
    + apply Forall_app; split; assumption.
  - destruct (collapse _ _) as [ms1 ok] eqn:Hc. apply collapse_calls in Hc. simpl in Hc.
    assert (Hms1 : (length (ms_calls ms1) <= 11)%nat /\
      Forall (fun c => target_faces <= targetfacenum c) (ms_calls ms1)).
    { rewrite Hc. split; [simpl; lia | constructor; [simpl; lia | constructor]]. }
    destruct ok.
    + destruct (save_ok _ _); intros Heq; inversion Heq; subst; exact Hms1.
    + intros Heq; inversion Heq; subst. exact Hms1.
Qed.
(** X1: a run of [progressive_simplify] that returns has called the
   quadric collapse at most 11 times: at most one per loop step (steps 1
   to 10), plus the final precise collapse. *)
Theorem progressive_simplify_collapse_bound (input_path : string) (target_faces : Z)
    (pb : bool) (timed_out : Z -> bool) (p : string) (ms : meshset) :
  progressive_simplify input_path target_faces pb timed_out = Returned (p, ms) ->
  (length (ms_calls ms) <= 11)%nat.
Proof. intros Hrun. exact (proj1 (progressive_simplify_calls _ _ _ _ _ _ Hrun)). Qed.

End DecimExtra.

Section PathExtra.
Import Decim PyText Scenarios.
Local Open Scope string_scope.

Lemma replace_aux_absent (old new : string) :
  forall s n, (String.length s <= n)%nat -> contains old s = false ->
  PyStr.replace_aux n old new s = s.
Proof.
  induction s as [|c r IH]; intros n Hn Hc; destruct n as [|f]; simpl; try reflexivity.
  simpl in Hc. apply orb_false_iff in Hc as [Hp Hr].
  rewrite Hp, IH; [reflexivity | simpl in Hn; lia | exact Hr].
Qed.

Lemma replace_absent (s old new : string) :
  contains old s = false -> PyStr.replace s old new = s.
Proof. intros Hc. apply replace_aux_absent; [lia | exact Hc]. Qed.

Context {M : Type} `{MeshLib M}.

Lemma progressive_simplify_path_absent (input_path : string)
    (target_faces : Z) (pb : bool) (timed_out : Z -> bool) (p : string) (ms : meshset) :
  contains ".obj" input_path = false ->
  progressive_simplify input_path target_faces pb timed_out = Returned (p, ms) ->
  p = input_path.
Proof.
  intros Hno. unfold progressive_simplify.
  rewrite (replace_absent _ _ _ Hno).
  destruct (load_new_mesh input_path) as [m|]; [| discriminate].
  destruct (Z.leb _ target_faces); [intros Heq; inversion Heq; reflexivity |].
  destruct (PyFloat.truediv _ _) as [ratio|]; [| discriminate].
  destruct (if PyFloat.ltb ratio _ then _ else _) as [|[ms' []]];
    [discriminate | | intros Heq; inversion Heq; reflexivity].
  destruct (save_ok _ _); intros Heq; inversion Heq; reflexivity.
Qed.
(** X3: when the input path has no [".obj"] in it (an upper-case [".OBJ"],
   say), [progressive_simplify] returns the input path itself: [replace]
   leaves the path unchanged, so the simplified mesh is saved over the
   input file. *)
Theorem progressive_simplify_path_without_obj (input_path : string)
    (target_faces : Z) (pb : bool) (timed_out : Z -> bool) (p : string) (ms : meshset) :
  contains ".obj" input_path = false ->
  progressive_simplify input_path target_faces pb timed_out = Returned (p, ms) ->
  p = input_path.
Proof. exact (progressive_simplify_path_absent input_path target_faces pb timed_out p ms). Qed.
End PathExtra.

Section UVPathExtra.
Import Decim PyText.
Local Open Scope string_scope.
Context {M : Type} `{MeshLib M}.

(** X4: the same for [simplify_with_uv_preservation]: without [".obj"] in
   the input path, the path it returns is the input path. *)
Theorem uv_simplify_path_without_obj (input_path : string)
    (target_faces : Z) (pb : bool) (timed_out : Z -> bool) (p : string)
    (oms : option meshset) :
  contains ".obj" input_path = false ->
  simplify_with_uv_preservation input_path target_faces pb timed_out = Returned (p, oms) ->
  p = input_path.
Proof.
  intros Hno. unfold simplify_with_uv_preservation.
  destruct (load_new_mesh input_path) as [m|]; [| intros Heq; inversion Heq; reflexivity].
  destruct (Z.leb _ target_faces); [intros Heq; inversion Heq; reflexivity |].
  destruct (match has_tex_coord m with Some b => b | None => false end).
  - rewrite (replace_absent _ _ _ Hno).
    destruct (uv_textured _ _ _) as [|[ms' []]]; [discriminate | | intros Heq; inversion Heq; reflexivity].
    destruct (save_ok _ _); intros Heq; inversion Heq; reflexivity.
  - destruct (progressive_simplify _ _ _ _) as [|[p' ms']] eqn:Hps; [discriminate |].
    intros Heq; inversion Heq; subst.
    exact (progressive_simplify_path_absent _ _ _ _ _ _ Hno Hps).
Qed.
End UVPathExtra.

Section PipelineExtra.
Import Decim Pipeline.
Local Open Scope string_scope.

(** X6: for a mesh trimesh loads with [nv] vertices and [nf] faces,
   ["auto"] leaves it alone at or below the target, and otherwise
   simplifies exactly when it is watertight and both counts are non-zero. *)
Theorem auto_branch_of_loaded_mesh {T : Type} `{TriMesh T}
    (obj_path : string) (mesh : T) (nv nf ne target_faces : Z) :
  tm_load obj_path = inl mesh ->
  tm_counts mesh = Some (nv, nf, ne) ->
  process_branch "auto" target_faces (check_mesh_quality obj_path) =
  if Z.leb nf target_faces then NoProcessing
  else if tm_is_watertight mesh && negb (Z.eqb nf 0) && negb (Z.eqb nv 0)
  then SimplifyBranch else RemeshBranch.
Proof.
  intros Hload Hcounts.
  unfold process_branch, select_operation, check_mesh_quality.
  rewrite Hload, Hcounts. simpl.
  destruct (Z.leb nf target_faces); [reflexivity |].
  unfold quality_issues.
  destruct (tm_is_watertight mesh); [| reflexivity].
  destruct (Z.eqb nf 0), (Z.eqb nv 0); reflexivity.
Qed.

End PipelineExtra.

Section Step6Extra.
Import Decim Pipeline PipelineExt.

(** X8: when the original quality report gives 0 faces (a file trimesh
   cannot load, for one), [process_model] raises at step 6: the reduction
   ratio divides by [original_faces]. *)
Theorem zero_original_faces_raises
    (simplify_uv : string -> Z -> bool -> outcome string)
    (restore : string -> string -> outcome unit)
    (repair : string -> outcome string)
    (instant_meshes : string -> string -> Z -> outcome unit)
    (temp_output : string) (quality_of : string -> report)
    (obj_in : string) (target_faces : Z) (operation : string) (pb : bool) :
  get_faces (quality_of obj_in) = 0 ->
  process_through_step6 simplify_uv restore repair instant_meshes temp_output
    quality_of obj_in target_faces operation pb = Raised.
Proof.
  intros H0. unfold process_through_step6.
  destruct (process_core _ _ _ _ _ _ _ _ _ _) as [|[final_obj calls]]; [reflexivity |].
  unfold PyFloat.truediv. rewrite H0. reflexivity.
Qed.
End Step6Extra.

Section RemeshExtra.
Import Decim Remesh.
Local Open Scope string_scope.

(** X9: every Instant Meshes command line is a base of at most 11
   arguments containing [-d], followed by the arguments of
   [extra_options]. *)
Theorem build_cmd_extra_options_last
    (INSTANT_MESHES_PATH obj_in obj_out : string) (target_faces : Z)
    (extra_options : list (string * optval)) (mode : string) (cmd : list arg) :
  build_cmd INSTANT_MESHES_PATH obj_in obj_out target_faces extra_options mode
    = Returned cmd ->
  exists base, cmd = app base (extra_args extra_options) /\ In (AStr "-d") base /\
    (length base <= 11)%nat.
Proof.
  unfold build_cmd. cbv zeta.
  destruct (if String.eqb mode "fine" then _ else _) as [|base] eqn:Hb;
    [discriminate |].
  intros Heq; injection Heq as <-. exists base. split; [reflexivity |].
  revert Hb.
  destruct (String.eqb mode "fine");
    [intros Hb; injection Hb as <-; simpl; split; [tauto | lia] |].
  destruct (String.eqb mode "coarse").
  { destruct (PyFloat.to_int _); [| discriminate].
    intros Hb; injection Hb as <-; simpl; split; [tauto | lia]. }
  destruct (String.eqb mode "fix_holes");
    intros Hb; injection Hb as <-; simpl; (split; [tauto | lia]).
Qed.
End RemeshExtra.

Lemma fold_left_inv {A B : Type} (P : A -> Prop) (f : A -> B -> A) (l : list B) :
  forall x, P x -> (forall y a, P y -> P (f y a)) -> P (fold_left f l x).
Proof.
  induction l as [|a l IH]; intros x Hx Hstep; simpl; [exact Hx |].
  apply IH; [apply Hstep; exact Hx | exact Hstep].
Qed.

Section RelinkExtra.
Import Decim Relink.
Local Open Scope string_scope.
Variable TEMP_DIR : string.
Variable dirname : string -> string.
Variable join : string -> string -> string.
Variable basename : string -> string.

Lemma safe_copy_mono (fs fs' : fsys) (src dst_dir p : string) :
  safe_copy join basename fs src dst_dir = Some fs' ->
  is_Some (fs !! p) -> is_Some (fs' !! p).
Proof.
  unfold safe_copy. destruct (String.eqb _ _); [intros Heq; inversion Heq; subst; tauto |].
  destruct (fs !! src); [| discriminate].
  intros Heq Hp; inversion Heq; subst. apply lookup_insert_is_Some'. right; exact Hp.
Qed.

Lemma safe_copy_frame (fs fs' : fsys) (src dst_dir p : string) :
  safe_copy join basename fs src dst_dir = Some fs' ->
  p <> join dst_dir (basename src) -> fs' !! p = fs !! p.
Proof.
  unfold safe_copy. destruct (String.eqb _ _); [intros Heq; inversion Heq; subst; reflexivity |].
  destruct (fs !! src); [| discriminate].
  intros Heq Hp; inversion Heq; subst. apply lookup_insert_ne. congruence.
Qed.

Lemma copy_texture_mono (orig_dir new_dir : string) (fs : fsys) (line p : string) :
  is_Some (fs !! p) -> is_Some (copy_texture TEMP_DIR join basename orig_dir new_dir fs line !! p).
Proof.
  intros Hp. unfold copy_texture.
  destruct (is_texture_line line); [| exact Hp].
  destruct (Nat.ltb 1 _); [| exact Hp].
  destruct (resolve _ _ _ _ _) as [src|]; [| exact Hp].
  destruct (safe_copy _ _ _ _ _) as [fs'|] eqn:Hc; [| exact Hp].
  exact (safe_copy_mono _ _ _ _ _ Hc Hp).
Qed.

Lemma copy_texture_frame (orig_dir new_dir : string) (fs : fsys) (line p : string) :
  (forall src, p <> join new_dir (basename src)) ->
  copy_texture TEMP_DIR join basename orig_dir new_dir fs line !! p = fs !! p.
Proof.
  intros Hp. unfold copy_texture.
  destruct (is_texture_line line); [| reflexivity].
  destruct (Nat.ltb 1 _); [| reflexivity].
  destruct (resolve _ _ _ _ _) as [src|]; [| reflexivity].
  destruct (safe_copy _ _ _ _ _) as [fs'|] eqn:Hc; [| reflexivity].
  exact (safe_copy_frame _ _ _ _ _ Hc (Hp src)).
Qed.

Lemma copy_textures_mono (orig_dir new_dir : string) (fs : fsys) (mtl p : string) :
  is_Some (fs !! p) -> is_Some (copy_textures TEMP_DIR join basename orig_dir new_dir fs mtl !! p).
Proof.
  intros Hp. unfold copy_textures.
  destruct (fs !! mtl) as [[mtl_lines|]|]; try exact Hp.
  apply (fold_left_inv (fun y => is_Some (y !! p))); [exact Hp |].
  intros y a Hy. apply copy_texture_mono; exact Hy.
Qed.

Lemma copy_textures_frame (orig_dir new_dir : string) (fs : fsys) (mtl p : string) :
  (forall src, p <> join new_dir (basename src)) ->
  copy_textures TEMP_DIR join basename orig_dir new_dir fs mtl !! p = fs !! p.
Proof.
  intros Hp. unfold copy_textures.
  destruct (fs !! mtl) as [[mtl_lines|]|]; try reflexivity.
  apply (fold_left_inv (fun y => y !! p = fs !! p)); [reflexivity |].
  intros y a Hy. rewrite copy_texture_frame by exact Hp. exact Hy.
Qed.

Lemma fix_obj_mtllib_mono (fs : fsys) (obj_path mtl_file p : string) :
  is_Some (fs !! p) -> is_Some (fix_obj_mtllib fs obj_path mtl_file !! p).
Proof.
  intros Hp. unfold fix_obj_mtllib.
  destruct (fs !! obj_path) as [[obj_lines|]|]; try exact Hp.
  apply lookup_insert_is_Some'. right; exact Hp.
Qed.

Lemma fix_obj_mtllib_frame (fs : fsys) (obj_path mtl_file p : string) :
  p <> obj_path -> fix_obj_mtllib fs obj_path mtl_file !! p = fs !! p.
Proof.
  intros Hp. unfold fix_obj_mtllib.
  destruct (fs !! obj_path) as [[obj_lines|]|]; try reflexivity.
  apply lookup_insert_ne. congruence.
Qed.

(** X10: [restore_obj_material] never removes a file. *)
Theorem restore_never_deletes (fs fs' : fsys) (obj_path original_obj_path p : string) :
  restore_obj_material TEMP_DIR dirname join basename fs obj_path original_obj_path
    = Returned fs' ->
  is_Some (fs !! p) -> is_Some (fs' !! p).
Proof.
  unfold restore_obj_material.
  destruct (fs !! original_obj_path) as [[lines|]|];
    try (intros Heq; inversion Heq; subst; tauto).
  destruct (mtl_files_of lines) as [|[|first rest]]; try discriminate;
    [intros Heq; inversion Heq; subst; tauto |].
  destruct (resolve _ _ _ _ _) as [src|]; [| intros Heq; inversion Heq; subst; tauto].
  destruct (safe_copy _ _ _ _ _) as [fs1|] eqn:Hc; [| intros Heq; inversion Heq; subst; tauto].
  intros Heq Hp; inversion Heq; subst.
  apply fix_obj_mtllib_mono, copy_textures_mono.
  exact (safe_copy_mono _ _ _ _ _ Hc Hp).
Qed.

(** X11: [restore_obj_material] changes no file other than the new OBJ and
   files named after a basename in the new OBJ's directory. *)
Theorem restore_frame (fs fs' : fsys) (obj_path original_obj_path p : string) :
  restore_obj_material TEMP_DIR dirname join basename fs obj_path original_obj_path
    = Returned fs' ->
  p <> obj_path ->
  (forall src, p <> join (dirname obj_path) (basename src)) ->
  fs' !! p = fs !! p.
Proof.
  unfold restore_obj_material.
  destruct (fs !! original_obj_path) as [[lines|]|];
    try (intros Heq; inversion Heq; subst; reflexivity).
  destruct (mtl_files_of lines) as [|[|first rest]]; try discriminate;
    [intros Heq; inversion Heq; subst; reflexivity |].
  destruct (resolve _ _ _ _ _) as [src|]; [| intros Heq; inversion Heq; subst; reflexivity].
  destruct (safe_copy _ _ _ _ _) as [fs1|] eqn:Hc;
    [| intros Heq; inversion Heq; subst; reflexivity].
  intros Heq Hobj Hdir; inversion Heq; subst.
  rewrite fix_obj_mtllib_frame by exact Hobj.
  rewrite copy_textures_frame by exact Hdir.
  exact (safe_copy_frame _ _ _ _ _ Hc (Hdir src)).
Qed.

Lemma mtl_files_of_bare (lines : list string) (l : string) :
  In l lines -> is_mtllib l = true -> (length (split_ws l) <= 1)%nat ->
  mtl_files_of lines = Raised.
Proof.
  induction lines as [|a lines IH]; intros Hin Hm Hlen; [contradiction |].
  simpl. destruct Hin as [-> | Hin].
  - rewrite Hm.
    destruct (split_ws l) as [|x [|y r]]; [reflexivity | reflexivity | simpl in Hlen; lia].
  - rewrite (IH Hin Hm Hlen).
    destruct (is_mtllib a); [| reflexivity].
    destruct (split_ws a) as [|x [|y r]]; reflexivity.
Qed.

(** X12: a bare [mtllib] line anywhere in the reference OBJ makes
   [restore_obj_material] raise ([IndexError] in the list comprehension). *)
Theorem bare_mtllib_raises (fs : fsys) (obj_path original_obj_path : string)
    (lines : list string) (l : string) :
  fs !! original_obj_path = Some (Text lines) ->
  In l lines -> is_mtllib l = true -> (length (split_ws l) <= 1)%nat ->
  restore_obj_material TEMP_DIR dirname join basename fs obj_path original_obj_path
    = Raised.
Proof.
  intros Horig Hin Hm Hlen. unfold restore_obj_material.
  rewrite Horig, (mtl_files_of_bare lines l Hin Hm Hlen). reflexivity.
Qed.
End RelinkExtra.

Section RewriteExtra.
Import Relink.
Local Open Scope string_scope.

Lemma rewrite_loop_others (mtl_file : string) (w : bool) (obj_lines : list string) :
  List.filter (fun l => negb (is_mtllib l)) (fst (rewrite_loop mtl_file w obj_lines))
  = List.filter (fun l => negb (is_mtllib l)) obj_lines.
Proof.
  revert w. induction obj_lines as [|line rest IH]; intros w; simpl; [reflexivity |].
  destruct (is_mtllib line) eqn:Hm.
  - destruct w; [apply IH |].
    destruct (rewrite_loop mtl_file true rest) as [out w'] eqn:Hr. cbn [fst].
    change (List.filter (fun l => negb (is_mtllib l)) (mtllib_line mtl_file :: out))
      with (if negb (is_mtllib (mtllib_line mtl_file))
            then mtllib_line mtl_file :: List.filter (fun l => negb (is_mtllib l)) out
            else List.filter (fun l => negb (is_mtllib l)) out).
    rewrite is_mtllib_mtllib_line. simpl.
    specialize (IH true). rewrite Hr in IH. exact IH.
  - destruct (rewrite_loop mtl_file w rest) as [out w'] eqn:Hr. cbn [fst].
    simpl. rewrite Hm. simpl. f_equal.
    specialize (IH w). rewrite Hr in IH. exact IH.
Qed.

(** X13: rewriting the [mtllib] directives keeps every other line of the
   OBJ, in order. *)
Theorem rewrite_mtllib_keeps_other_lines (mtl_file : string) (obj_lines : list string) :
  List.filter (fun l => negb (is_mtllib l)) (rewrite_mtllib mtl_file obj_lines)
  = List.filter (fun l => negb (is_mtllib l)) obj_lines.
Proof.
  unfold rewrite_mtllib.
  pose proof (rewrite_loop_others mtl_file false obj_lines) as Hk.
  destruct (rewrite_loop mtl_file false obj_lines) as [out w]. cbn [fst] in Hk.
  destruct w; [exact Hk |].
  change (List.filter (fun l => negb (is_mtllib l)) (mtllib_line mtl_file :: out))
    with (if negb (is_mtllib (mtllib_line mtl_file))
          then mtllib_line mtl_file :: List.filter (fun l => negb (is_mtllib l)) out
          else List.filter (fun l => negb (is_mtllib l)) out).
  rewrite is_mtllib_mtllib_line. exact Hk.
Qed.
End RewriteExtra.

Section TextureExtra.
Import PyText Texture.
Local Open Scope string_scope.

Lemma common_exts_are_texture_exts (n : string) :
  existsb (endswith n) common_image_exts = true ->
  existsb (endswith n) texture_extensions = true.
Proof.
  rewrite !existsb_exists. intros (x & Hin & Hx). exists x. split; [| exact Hx].
  simpl in Hin |- *. tauto.
Qed.

(** X15: a file with a common image extension and no excluded keyword is
   classed as a texture. *)
Theorem common_image_is_texture (seps : list ascii) (filename : string) :
  existsb (endswith (Relink.lower filename)) common_image_exts = true ->
  existsb (fun k => contains k (Relink.lower filename)) non_texture_keywords = false ->
  is_texture_file seps filename = true.
Proof.
  intros Hc Hk. unfold is_texture_file, enhanced_is_texture_file.
  set (n := Relink.lower filename) in *.
  rewrite (common_exts_are_texture_exts _ Hc), Hk. cbn [negb].
  destruct (existsb (fun k => contains k n) texture_keywords); [reflexivity |].
  destruct (existsb (fun w => search_word_digits w n) number_pattern_words); [reflexivity |].
  destruct (Nat.leb _ _ && _); [reflexivity |].
  rewrite Hc. reflexivity.
Qed.
End TextureExtra.

Lemma nodup_snoc {A : Type} (l : list A) (x : A) :
  List.NoDup l -> ~ In x l -> List.NoDup (l ++ [x]).
Proof.
  induction l as [|a l IH]; intros Hnd Hx; simpl; [constructor; [tauto | constructor] |].
  inversion Hnd as [|a' l' Ha Hl]; subst. constructor.
  - rewrite in_app_iff. intros [Hin | [Heq | []]]; [tauto | subst; apply Hx; left; reflexivity].
  - apply IH; [exact Hl | intros Hin; apply Hx; right; exact Hin].
Qed.

Lemma in_list_false (x : string) (xs : list string) :
  PyText.in_list x xs = false -> ~ In x xs.
Proof.
  unfold PyText.in_list. intros Hf Hin.
  assert (Ht : existsb (String.eqb x) xs = true).
  { apply existsb_exists. exists x. split; [exact Hin | apply String.eqb_refl]. }
  congruence.
Qed.

Section CollectExtra.
Import Collect.
Variable seps : list ascii.
Variable path_exists isdir isfile : string -> bool.
Variable listdir : string -> option (list string).
Variable join : string -> string -> string.
Variable dirname basename : string -> string.
Variable TEMP_DIR : string.

Local Abbreviation collected_ok := (Invariants.collected_ok isfile).

Lemma collect_dir_inv (directory : string) (c : list string) :
  collected_ok c ->
  let '(tf, c') := collect_texture_files_from_directory seps path_exists isdir
                     isfile listdir join directory c in
  c' = c ++ tf /\ collected_ok c'.
Proof.
  intros Hc. unfold collect_texture_files_from_directory.
  destruct (negb (path_exists directory) || negb (isdir directory));
    [rewrite app_nil_r; split; [reflexivity | exact Hc] |].
  destruct (listdir directory) as [names|];
    [| rewrite app_nil_r; split; [reflexivity | exact Hc]].
  apply (fold_left_inv (fun acc => let '(tf, c') := acc in c' = c ++ tf /\ collected_ok c')).
  - rewrite app_nil_r. split; [reflexivity | exact Hc].
  - intros [tf c'] filename [Hc' [Hnd Hall]]. unfold collect_step.
    destruct (isfile (join directory filename)) eqn:Hf; simpl; [| split; [exact Hc' | split; assumption]].
    destruct (Texture.is_texture_file seps filename); [| split; [exact Hc' | split; assumption]].
    destruct (PyText.in_list _ c') eqn:Hin; [split; [exact Hc' | split; assumption] |].
    split; [rewrite Hc', app_assoc; reflexivity |].
    split; [apply nodup_snoc; [exact Hnd | apply in_list_false; exact Hin] |].
    apply Forall_app; split; [exact Hall | constructor; [exact Hf | constructor]].
Qed.

(** X16: [collect_all_texture_files] returns each path at most once, and
   only paths of existing files. *)
Theorem collect_all_distinct_files (input_model : string) (additional_files : list string) :
  let result := collect_all_texture_files seps path_exists isdir isfile listdir join
                  dirname basename TEMP_DIR input_model additional_files in
  List.NoDup result /\ Forall (fun p => isfile p = true) result.
Proof.
  assert (Hnil : collected_ok []) by (split; constructor).
  assert (Hstep1 :
    let '(all1, c1) :=
      if isdir input_model then
        let '(tf, c) := collect_texture_files_from_directory seps path_exists isdir
                          isfile listdir join input_model [] in (app [] tf, c)
      else if isfile input_model && negb (PyText.is_url input_model) then
        let '(tf, c) := collect_texture_files_from_directory seps path_exists isdir
                          isfile listdir join (dirname input_model) [] in (app [] tf, c)
      else ([], []) in
    all1 = c1 /\ collected_ok c1).
  { destruct (isdir input_model).
    - pose proof (collect_dir_inv input_model [] Hnil) as Hd.
      destruct (collect_texture_files_from_directory _ _ _ _ _ _ input_model []) as [tf c].
      destruct Hd as [-> Hok]. split; [reflexivity | exact Hok].
    - destruct (isfile input_model && negb (PyText.is_url input_model));
        [| split; [reflexivity | exact Hnil]].
      pose proof (collect_dir_inv (dirname input_model) [] Hnil) as Hd.
      destruct (collect_texture_files_from_directory _ _ _ _ _ _ (dirname input_model) [])
        as [tf c].
      destruct Hd as [-> Hok]. split; [reflexivity | exact Hok]. }
  simpl. unfold collect_all_texture_files.
  match goal with
  | |- context [let '(_, _) := ?e in _] =>
      match e with
      | if isdir input_model then _ else _ => destruct e as [all1 c1]
      end
  end.
  destruct Hstep1 as [-> Hok1].
  assert (Hadd : let '(all2, c2) := fold_left (collect_additional seps isfile basename)
                   additional_files (c1, c1) in all2 = c2 /\ collected_ok c2).
  { apply (fold_left_inv (fun acc => let '(a, c) := acc in a = c /\ collected_ok c)).
    - split; [reflexivity | exact Hok1].
    - intros [a c] file_path [-> [Hnd Hall]]. unfold collect_additional.
      destruct (isfile file_path) eqn:Hf; simpl; [| split; [reflexivity | split; assumption]].
      destruct (Texture.is_texture_file seps (basename file_path));
        [| split; [reflexivity | split; assumption]].
      destruct (PyText.in_list file_path c) eqn:Hin;
        [split; [reflexivity | split; assumption] |].
      split; [reflexivity |]. split.
      + apply nodup_snoc; [exact Hnd | apply in_list_false; exact Hin].
      + apply Forall_app; split; [exact Hall | constructor; [exact Hf | constructor]]. }
  destruct (fold_left _ additional_files (c1, c1)) as [all2 c2].
  destruct Hadd as [-> [Hnd2 Hall2]].
  destruct (path_exists TEMP_DIR); [| split; assumption].
  pose proof (collect_dir_inv TEMP_DIR c2 (conj Hnd2 Hall2)) as Hd.
  destruct (collect_texture_files_from_directory _ _ _ _ _ _ TEMP_DIR c2) as [tf c3].
  destruct Hd as [<- [Hnd3 Hall3]]. split; assumption.
Qed.
End CollectExtra.

Section FolderCopyExtra.
Import Decim Relink FolderCopy.
Variable TEMP_DIR : string.
Variable join : string -> string -> string.
Variable isdir : string -> bool.
Variable listdir : string -> option (list string).
Variable copy2 : string -> string -> content -> copy2_result.
Variable remove_ok : string -> bool.



End FolderCopyExtra.

Section DownloadExtra.
Import Decim Download.

Lemma download_loop_S (ev : nat -> attempt_result) (attempt r : nat) :
  download_loop ev attempt (S r) =
  match ev attempt with
  | Downloaded => (1%nat, Returned tt)
  | a =>
      if retryable a then
        if Nat.ltb attempt 2 then
          let '(n, o) := download_loop ev (S attempt) r in (S n, o)
        else (1%nat, Raised)
      else (1%nat, Raised)
  end.
Proof.
  simpl. destruct (ev attempt) as [|code| | |]; try reflexivity.
  unfold retryable.
  destruct (Z.eqb code 403) eqn:H403; [reflexivity |].
  destruct (Z.eqb code 404) eqn:H404.
  - apply Z.eqb_eq in H404; subst. reflexivity.
  - simpl. destruct (Z.eqb code 429 || Z.eqb code 503); reflexivity.
Qed.

Lemma download_loop_spec (ev : nat -> attempt_result) (r : nat) :
  forall attempt, (attempt + r = 3)%nat ->
  let '(n, o) := download_loop ev attempt r in
  (n <= r)%nat /\
  (o = Returned tt <->
   exists k, (attempt <= k < 3)%nat /\ ev k = Downloaded /\
     forall j, (attempt <= j < k)%nat -> retryable (ev j) = true).
Proof.
  induction r as [|r IH]; intros attempt Hsum.
  { simpl. split; [lia |]. split; [discriminate | intros (k & Hk & _); lia]. }
  rewrite download_loop_S.
  assert (Hcases : forall a, ev attempt = a -> a <> Downloaded -> retryable a = false ->
    (1 <= S r)%nat /\
    (@Raised unit = Returned tt <->
     exists k, (attempt <= k < 3)%nat /\ ev k = Downloaded /\
       forall j, (attempt <= j < k)%nat -> retryable (ev j) = true)).
  { intros a Ha Hnd Hnr. split; [lia |]. split; [discriminate |].
    intros (k & Hk & Hdl & Hj).
    destruct (Nat.eq_dec k attempt) as [-> | Hne]; [congruence |].
    specialize (Hj attempt ltac:(lia)). congruence. }
  destruct (ev attempt) as [|code| | |] eqn:Hev.
  { split; [lia |]. split; [intros _; exists attempt; split; [lia |]; split; [exact Hev | intros; lia] | reflexivity]. }
  all: destruct (retryable _) eqn:Hr;
    [| apply (Hcases _ eq_refl); [discriminate | exact Hr]].
  all: destruct (Nat.ltb attempt 2) eqn:Hlt.
  all: try (split; [lia |]; split; [discriminate |];
            intros (k & Hk & Hdl & Hj); apply Nat.ltb_ge in Hlt;
            assert (k = attempt) by lia; subst; congruence).
  all: apply Nat.ltb_lt in Hlt;
       specialize (IH (S attempt) ltac:(lia));
       destruct (download_loop ev (S attempt) r) as [n o];
       destruct IH as [Hn Hiff]; split; [lia |];
       rewrite Hiff; split;
       [ intros (k & Hk & Hdl & Hj); exists k; split; [lia |]; split; [exact Hdl |];
         intros j Hj'; destruct (Nat.eq_dec j attempt) as [-> | Hne];
           [rewrite Hev; exact Hr | apply Hj; lia]
       | intros (k & Hk & Hdl & Hj);
         destruct (Nat.eq_dec k attempt) as [-> | Hne]; [congruence |];
         exists k; split; [lia |]; split; [exact Hdl | intros j Hj'; apply Hj; lia] ].
Qed.

(** X18: [download_to_temp] makes at most 3 requests, and returns exactly
   when some attempt k < 3 downloads and every earlier attempt ended in a
   retried failure (403, 429, 503, timeout, connection or other error). *)
Theorem download_attempts (ev : nat -> attempt_result) :
  (fst (download_to_temp ev) <= 3)%nat /\
  (snd (download_to_temp ev) = Returned tt <->
   exists k, (k < 3)%nat /\ ev k = Downloaded /\
     forall j, (j < k)%nat -> retryable (ev j) = true).
Proof.
  unfold download_to_temp.
  pose proof (download_loop_spec ev max_retries 0 eq_refl) as Hs.
  destruct (download_loop ev 0 max_retries) as [n o]. simpl.
  destruct Hs as [Hn Hiff]. split; [exact Hn |].
  rewrite Hiff. split.
  - intros (k & Hk & Hdl & Hj). exists k. split; [lia |]. split; [exact Hdl |].
    intros j Hj'; apply Hj; lia.
  - intros (k & Hk & Hdl & Hj). exists k. split; [lia |]. split; [exact Hdl |].
    intros j Hj'; apply Hj; lia.
Qed.
End DownloadExtra.

Section ArchiveExtra.
Import Decim Archive.

Import Invariants.

Lemma clean_fold (cutoff_time : Z) (entries : list entry) :
  forall n kept,
  let '(n', kept') := fold_left (clean_step cutoff_time) entries (n, kept) in
  n' + Z.of_nat (length kept') = n + Z.of_nat (length kept) + Z.of_nat (length entries) /\
  (forall e, In e kept -> In e kept') /\
  (forall e, In e entries -> kept_always cutoff_time e -> In e kept').
Proof.
  induction entries as [|e rest IH]; intros n kept; cbn [fold_left length].
  { split; [lia |]. split; [tauto | intros _ []]. }
  assert (Hkeep : forall n1 kept1, clean_step cutoff_time (n, kept) e = (n1, kept1) ->
    n1 + Z.of_nat (length kept1) = n + Z.of_nat (length kept) + 1 /\
    (forall x, In x kept -> In x kept1) /\
    (kept_always cutoff_time e -> In e kept1)).
  { intros n1 kept1. unfold clean_step.
    assert (Hadd : forall m, (m, app kept [e]) = (n1, kept1) ->
      m = n -> n1 + Z.of_nat (length kept1) = n + Z.of_nat (length kept) + 1 /\
      (forall x, In x kept -> In x kept1) /\
      (kept_always cutoff_time e -> In e kept1)).
    { intros m Heq ->. inversion Heq; subst. rewrite length_app. simpl.
      split; [lia |]. split; [intros x Hx; apply in_app_iff; left; exact Hx |].
      intros _; apply in_app_iff; right; left; reflexivity. }
    destruct (e_isdir e) eqn:Hdir; [| intros Heq; apply (Hadd n Heq eq_refl)].
    destruct (e_mtime e) as [t|] eqn:Ht; [| intros Heq; apply (Hadd n Heq eq_refl)].
    destruct (t <? cutoff_time) eqn:Hlt; [| intros Heq; apply (Hadd n Heq eq_refl)].
    destruct (e_rmtree_ok e); [| intros Heq; apply (Hadd n Heq eq_refl)].
    intros Heq; inversion Heq; subst. split; [lia |]. split; [tauto |].
    unfold kept_always. intros [Hf | [Hn | (t' & Ht' & Hle)]]; [congruence | congruence |].
    rewrite Ht in Ht'. injection Ht' as <-. apply Z.ltb_lt in Hlt. lia. }
  destruct (clean_step cutoff_time (n, kept) e) as [n1 kept1] eqn:Hs.
  destruct (Hkeep n1 kept1 eq_refl) as (Hc & Hk & He).
  specialize (IH n1 kept1).
  destruct (fold_left (clean_step cutoff_time) rest (n1, kept1)) as [n' kept'].
  destruct IH as (Hc' & Hk' & He').
  split; [lia |]. split; [intros x Hx; apply Hk', Hk, Hx |].
  intros x [<- | Hx] Hka; [apply Hk', He, Hka | apply He'; assumption].
Qed.

(** X19: when [clean_old_archives] returns, its count plus the number of
   entries left in place is the number of entries of the archive folder,
   and it leaves every file, every folder whose time cannot be read, and
   every folder not older than the cutoff. *)
Theorem clean_old_archives_spec (archive_exists : bool) (entries : list entry)
    (now days_to_keep deleted_count : Z) (kept : list entry) :
  clean_old_archives archive_exists entries now days_to_keep = Returned (deleted_count, kept) ->
  deleted_count + Z.of_nat (length kept) = Z.of_nat (length entries) /\
  forall e, In e entries ->
    kept_always (now - days_to_keep * us_per_day) e -> In e kept.
Proof.
  unfold clean_old_archives.
  destruct archive_exists; simpl; [| intros Heq; inversion Heq; subst; split; [lia | tauto]].
  destruct ((now - days_to_keep * us_per_day <? 0) || (datetime_end <=? now - days_to_keep * us_per_day));
    [discriminate |].
  pose proof (clean_fold (now - days_to_keep * us_per_day) entries 0 []) as Hf.
  destruct (fold_left _ entries (0, [])) as [n' kept'].
  intros Heq; inversion Heq; subst.
  destruct Hf as (Hc & _ & He). simpl in Hc. split; [lia | exact He].
Qed.
End ArchiveExtra.

Section EnsureExtra.
Import Decim Relink EnsureTex.
Local Open Scope string_scope.
Variable TEMP_DIR : string.
Variable dirname : string -> string.
Variable join : string -> string -> string.
Variable stem : string -> string.
Variable copy2 : string -> string -> content -> FolderCopy.copy2_result.

Local Abbreviation ensure_inv := (Invariants.ensure_inv join).

Lemma ensure_line_inv (fs0 : fsys) (obj_dir : string) (acc : fsys * list string * list string)
    (line : string) :
  ensure_inv fs0 obj_dir acc ->
  ensure_inv fs0 obj_dir (ensure_line TEMP_DIR join copy2 obj_dir acc line).
Proof.
  destruct acc as [[fs1 ul] tc]. intros (Hframe & Hnil & Hnew).
  unfold ensure_line.
  destruct (is_texture_line line); [| split; [exact Hframe | split; assumption]].
  destruct (split_ws line) as [|map_type [|x rest]];
    try (split; [exact Hframe | split; assumption]).
  set (tex := last_component (List.last (map_type :: x :: rest) "")).
  set (target := join obj_dir tex).
  assert (Hkeep : forall fs' tc', (fs', tc') = (fs1, tc) ->
    forall ul', ensure_inv fs0 obj_dir (fs', ul', tc')).
  { intros fs' tc' Heq ul'; inversion Heq; subst. split; [exact Hframe | split; assumption]. }
  match goal with
  | |- ensure_inv _ _ (let '(_, _) := ?e in _) => destruct e as [fs' tc'] eqn:He
  end.
  enough (Hi : ensure_inv fs0 obj_dir (fs', ul, tc')).
  { destruct Hi as (H1 & H2 & H3).
    destruct (exists_ fs' _); (split; [exact H1 | split; assumption]). }
  change (last_component (List.last (map_type :: x :: rest) "")) with tex in He.
  change (join obj_dir tex) with target in He.
  revert He.
  destruct (exists_ fs1 target) eqn:Hex; [intros He; apply (Hkeep _ _ (eq_sym He)) |].
  destruct (fs1 !! join TEMP_DIR tex) as [c|]; [| intros He; apply (Hkeep _ _ (eq_sym He))].
  assert (Htarget0 : exists_ fs1 target = false -> fs0 !! target = None).
  { intros Hex'. unfold exists_ in Hex'.
    destruct (Hframe target) as [Heq | [Hn _]]; [| exact Hn].
    rewrite <- Heq. destruct (fs1 !! target); [discriminate | reflexivity]. }
  specialize (Htarget0 Hex).
  assert (Hins : forall c' : content,
    forall p, <[target := c']> fs1 !! p = fs0 !! p \/
              (fs0 !! p = None /\ exists tex, p = join obj_dir tex)).
  { intros c' p. destruct (decide (target = p)) as [<- | Hne].
    + right. split; [exact Htarget0 | eexists; reflexivity].
    + rewrite lookup_insert_ne by exact Hne. apply Hframe. }
  assert (Hnew' : forall c' : content,
    exists p, fs0 !! p = None /\ is_Some (<[target := c']> fs1 !! p)).
  { intros c'. exists target. split; [exact Htarget0 |].
    rewrite lookup_insert_eq. eexists; reflexivity. }
  destruct (copy2 _ _ c) as [|[c'|]]; [| | intros He; apply (Hkeep _ _ (eq_sym He))];
    intros He; inversion He; subst fs' tc'; clear He.
  - split; [exact (Hins c) | split; [| intros _; exact (Hnew' c)]].
    intros Habs. destruct tc; discriminate.
  - split; [exact (Hins c') | split; intros _; [right |]; exact (Hnew' c')].
Qed.

Lemma ensure_fold_inv (fs : fsys) (obj_dir : string) (mtl_lines : list string) :
  ensure_inv fs obj_dir
    (fold_left (ensure_line TEMP_DIR join copy2 obj_dir) mtl_lines (fs, [], [])).
Proof.
  apply fold_left_inv.
  - split; [intros p; left; reflexivity | split; [intros _; left; reflexivity | intros Hn; contradiction]].
  - intros y a Hy. apply ensure_line_inv; exact Hy.
Qed.

(** X20: [ensure_textures_in_obj_dir] changes only the MTL file it settles
   on and creates files only in the OBJ's directory, where none existed. *)
Theorem ensure_textures_frame (fs : fsys) (obj_path p : string) :
  ensure_textures_in_obj_dir TEMP_DIR dirname join stem copy2 fs obj_path !! p = fs !! p \/
  ensure_mtl_path dirname join stem fs obj_path = Some p \/
  (fs !! p = None /\ exists tex, p = join (dirname obj_path) tex).
Proof.
  unfold ensure_textures_in_obj_dir.
  destruct (ensure_mtl_path dirname join stem fs obj_path) as [mtl|] eqn:Hm; [| left; reflexivity].
  destruct (negb (exists_ fs mtl)); [left; reflexivity |].
  destruct (fs !! mtl) as [[mtl_lines|]|]; try (left; reflexivity).
  pose proof (ensure_fold_inv fs (dirname obj_path) mtl_lines) as Hi.
  destruct (fold_left _ mtl_lines (fs, [], [])) as [[fs1 ul] tc].
  destruct Hi as (Hframe & _ & _).
  destruct tc as [|t tc].
  - destruct (Hframe p) as [Hp | Hp]; [left; exact Hp | right; right; exact Hp].
  - destruct (decide (mtl = p)) as [<- | Hne]; [right; left; reflexivity |].
    rewrite lookup_insert_ne by exact Hne.
    destruct (Hframe p) as [Hp | Hp]; [left; exact Hp | right; right; exact Hp].
Qed.

(** X21: when [ensure_textures_in_obj_dir] creates no file, it changes
   nothing: the MTL is not rewritten to relative texture paths either. *)
Theorem ensure_textures_no_copy_no_change (fs : fsys) (obj_path : string) :
  (forall p, is_Some (ensure_textures_in_obj_dir TEMP_DIR dirname join stem copy2 fs obj_path !! p) ->
             is_Some (fs !! p)) ->
  ensure_textures_in_obj_dir TEMP_DIR dirname join stem copy2 fs obj_path = fs.
Proof.
  unfold ensure_textures_in_obj_dir.
  destruct (ensure_mtl_path dirname join stem fs obj_path) as [mtl|]; [| reflexivity].
  destruct (negb (exists_ fs mtl)) eqn:Hex; [reflexivity |].
  destruct (fs !! mtl) as [[mtl_lines|]|] eqn:Hmtl; try reflexivity.
  pose proof (ensure_fold_inv fs (dirname obj_path) mtl_lines) as Hi.
  destruct (fold_left _ mtl_lines (fs, [], [])) as [[fs1 ul] tc].
  destruct Hi as (_ & Hnil & Hnew).
  destruct tc as [|t tc].
  { intros Hsub. destruct (Hnil eq_refl) as [-> | (p & Hp0 & Hp1)]; [reflexivity | exfalso].
    specialize (Hsub p). rewrite Hp0 in Hsub. destruct (Hsub Hp1) as [? Habs]; discriminate. }
  intros Hsub. exfalso.
  destruct (Hnew ltac:(discriminate)) as (p & Hp0 & Hp1).
  assert (Hne : mtl <> p) by (intros <-; rewrite Hmtl in Hp0; discriminate).
  specialize (Hsub p). rewrite lookup_insert_ne in Hsub by exact Hne.
  rewrite Hp0 in Hsub. destruct (Hsub Hp1) as [? Habs]; discriminate.
Qed.
End EnsureExtra.

Section Witnesses.
Import Decim Pipeline Remesh Relink Scenarios ExtraScenarios.
Local Open Scope string_scope.

(** Witness of [progressive_simplify_collapse_bound]. *)
Lemma progressive_simplify_collapse_bound_witness :
  (length (ms_calls {| ms_mesh := 990%Z;
                       ms_calls := [step_params 600 true; final_params 100 true] |}) <= 11)%nat.
Proof.
  apply (@progressive_simplify_collapse_bound Z stall_lib "m.obj" 100 true no_timeout
           "m_simplified.obj").
  vm_compute. reflexivity.
Defined.


(** Witness of [progressive_simplify_path_without_obj]. *)
Lemma progressive_simplify_path_without_obj_witness :
  exists p ms,
    @progressive_simplify Z stall_lib "m.OBJ" 100 true no_timeout = Returned (p, ms) /\
    p = "m.OBJ".
Proof.
  do 2 eexists. split; [vm_compute; reflexivity |].
  eapply (@progressive_simplify_path_without_obj Z stall_lib "m.OBJ" 100 true no_timeout);
    vm_compute; reflexivity.
Defined.

(** Witness of [uv_simplify_path_without_obj]. *)
Lemma uv_simplify_path_without_obj_witness :
  exists p oms,
    @simplify_with_uv_preservation Z stall_lib "m.OBJ" 100 true no_timeout = Returned (p, oms) /\
    p = "m.OBJ".
Proof.
  do 2 eexists. split; [vm_compute; reflexivity |].
  eapply (@uv_simplify_path_without_obj Z stall_lib "m.OBJ" 100 true no_timeout);
    vm_compute; reflexivity.
Defined.

(** Witness of [auto_branch_of_loaded_mesh]. *)
Lemma auto_branch_of_loaded_mesh_witness :
  process_branch "auto" 10 (@check_mesh_quality unit cube_tm "cube.obj") =
  if Z.leb 12 10 then NoProcessing
  else if true && negb (Z.eqb 12 0) && negb (Z.eqb 8 0)
  then SimplifyBranch else RemeshBranch.
Proof.
  apply (@auto_branch_of_loaded_mesh unit cube_tm "cube.obj" tt 8 12 18 10);
    vm_compute; reflexivity.
Defined.


(** Witness of [zero_original_faces_raises]. *)
Lemma zero_original_faces_raises_witness :
  PipelineExt.process_through_step6 raising_simplify raising_restore raising_repair
    raising_instant_meshes "/srv/temp/out.obj" error_quality "/srv/in/model.obj" 5000
    "auto" true = Raised.
Proof. apply zero_original_faces_raises. reflexivity. Defined.

(** Witness of [build_cmd_extra_options_last]. *)
Lemma build_cmd_extra_options_last_witness :
  exists cmd,
    build_cmd "Instant Meshes" "in.obj" "out.obj" 5000
      [("--threads", OOther "4"); ("--creases", OBool true); ("--smooth", OBool false)] "fine"
      = Returned cmd /\
    exists base,
      cmd = app base (extra_args [("--threads", OOther "4"); ("--creases", OBool true);
                                  ("--smooth", OBool false)]) /\
      In (AStr "-d") base /\ (length base <= 11)%nat.
Proof.
  eexists. split; [vm_compute; reflexivity |].
  apply (build_cmd_extra_options_last "Instant Meshes" "in.obj" "out.obj" 5000
           [("--threads", OOther "4"); ("--creases", OBool true); ("--smooth", OBool false)]
           "fine").
  vm_compute. reflexivity.
Defined.

(** Witness of [restore_never_deletes]. *)
Lemma restore_never_deletes_witness :
  exists fs',
    restore_obj_material "/w/temp" posix_dirname posix_join posix_basename relink_fs
      "/w/out/model_uv.obj" "/w/in/model.obj" = Returned fs' /\
    is_Some (fs' !! "/w/in/tex.png").
Proof.
  eexists. split; [vm_compute; reflexivity |].
  apply (restore_never_deletes "/w/temp" posix_dirname posix_join posix_basename relink_fs _
           "/w/out/model_uv.obj" "/w/in/model.obj").
  - vm_compute. reflexivity.
  - vm_compute. eexists. reflexivity.
Defined.

(** Witness of [restore_frame]. *)
Lemma restore_frame_witness :
  exists fs',
    restore_obj_material "/w/temp" posix_dirname posix_join posix_basename relink_fs
      "/w/out/model_uv.obj" "/w/in/model.obj" = Returned fs' /\
    fs' !! "/w/in/model.mtl" = relink_fs !! "/w/in/model.mtl".
Proof.
  eexists. split; [vm_compute; reflexivity |].
  apply (restore_frame "/w/temp" posix_dirname posix_join posix_basename relink_fs _
           "/w/out/model_uv.obj" "/w/in/model.obj").
  - vm_compute. reflexivity.
  - vm_compute. discriminate.
  - intros src. vm_compute. discriminate.
Defined.

(** Witness of [bare_mtllib_raises]. *)
Lemma bare_mtllib_raises_witness :
  restore_obj_material "/w/temp" posix_dirname posix_join posix_basename bare_fs
    "/w/out/model_uv.obj" "/w/in/bare.obj" = Raised.
Proof.
  apply (bare_mtllib_raises "/w/temp" posix_dirname posix_join posix_basename bare_fs
           "/w/out/model_uv.obj" "/w/in/bare.obj"
           ["mtllib model.mtl" ++ nl; "mtllib" ++ nl; "v 0 0 0" ++ nl] ("mtllib" ++ nl)).
  - vm_compute. reflexivity.
  - simpl. right. left. reflexivity.
  - vm_compute. reflexivity.
  - apply Nat.leb_le. vm_compute. reflexivity.
Defined.

(** Witness of [common_image_is_texture]. *)
Lemma common_image_is_texture_witness :
  Texture.is_texture_file posix_seps "photograph_of_sunset.jpg" = true.
Proof. apply common_image_is_texture; vm_compute; reflexivity. Defined.


(** Witness of [clean_old_archives_spec]. *)
Lemma clean_old_archives_spec_witness :
  exists deleted_count kept,
    Archive.clean_old_archives true archive_entries (100 * Archive.us_per_day) 30
      = Returned (deleted_count, kept) /\
    deleted_count + Z.of_nat (length kept) = Z.of_nat (length archive_entries) /\
    forall e, In e archive_entries ->
      Invariants.kept_always (100 * Archive.us_per_day - 30 * Archive.us_per_day) e ->
      In e kept.
Proof.
  do 2 eexists. split; [vm_compute; reflexivity |].
  apply (clean_old_archives_spec true archive_entries (100 * Archive.us_per_day) 30).
  vm_compute. reflexivity.
Defined.

(** Witness of [ensure_textures_no_copy_no_change]. *)
Lemma ensure_textures_no_copy_no_change_witness :
  EnsureTex.ensure_textures_in_obj_dir "/t" posix_dirname posix_join posix_stem copy_always
    ensure_fs "/o/m.obj" = ensure_fs.
Proof.
  apply ensure_textures_no_copy_no_change.
  assert (E : EnsureTex.ensure_textures_in_obj_dir "/t" posix_dirname posix_join posix_stem
                copy_always ensure_fs "/o/m.obj" = ensure_fs) by (vm_compute; reflexivity).
  intros p. rewrite E. tauto.
Defined.
End Witnesses.
